(** * Risk and volatility analytics: the DB server and the risk agent

    A shallow embedding of [mcp_servers/db_server.py] (class
    [MCPDatabaseServer]) and [agents/risk_agent.py] (class [RiskAgent]),
    and the properties of the risk engine checked against it.

    Conventions of the embedding:
    - a Python or numpy float is a binary64 primitive float; comparisons
      are the IEEE ones (every comparison with NaN is false);
    - a [datetime] is an integer count of milliseconds, a calendar date is
      the day number [t / 86400000];
    - a Python [dict] is an association list in insertion order;
    - a block [try: ... except Exception: ...] whose body can raise is a
      computation in the exception monad [exc] followed by its handler;
    - the libraries are the ones the repository installs: the truth test
      of a pymongo [Database] raises, the quote source labels its bars
      with time-zone-aware timestamps;
    - the reductions of numpy and pandas (sum, mean, std, percentile) are
      written as left-to-right folds; no property below depends on the
      order in which a sum is rounded. *)

From Stdlib Require Import Floats Uint63 ZArith List String Ascii Bool Lia.
From Stdlib Require Import Sorted Permutation DecimalString.
Import ListNotations.

Set Warnings "-inexact-float,-register-all".

Local Open Scope string_scope.

(** ** Floats as Python writes them *)

Definition fgt (x y : float) : bool := PrimFloat.ltb y x.
Definition flt (x y : float) : bool := PrimFloat.ltb x y.
Definition fle (x y : float) : bool := PrimFloat.leb x y.
Definition fge (x y : float) : bool := PrimFloat.leb y x.
Definition feq (x y : float) : bool := PrimFloat.eqb x y.
Definition fne (x y : float) : bool := negb (PrimFloat.eqb x y).

(** [float(n)] for an integer of magnitude below [2^63]. *)
Definition float_of_Z (z : Z) : float :=
  if (z <? 0)%Z then PrimFloat.opp (of_uint63 (Uint63.of_Z (- z)))
  else of_uint63 (Uint63.of_Z z).

Definition float_of_nat (n : nat) : float := float_of_Z (Z.of_nat n).

(** [floor(x)] of a finite float, as an integer. *)
Definition floor_Z (x : float) : Z :=
  match Prim2SF x with
  | S754_finite s m e => Z.shiftl (if s then Zneg m else Zpos m) e
  | _ => 0%Z
  end.

(** The builtin [round(x, 4)] on a float: the decimal with four digits
    after the point nearest to the exact value of [x] (ties to the even
    digit), read back as the nearest float.  NaN, the infinities and the
    zeros round to themselves.  When the scaled integer [n] needs more than
    53 bits, [x] is itself the float nearest to [n / 10^4]. *)
Definition round4 (x : float) : float :=
  match Prim2SF x with
  | S754_finite s m e =>
      let num := (Zpos m * 10000 * 2 ^ Z.max e 0)%Z in
      let den := (2 ^ Z.max (- e) 0)%Z in
      let q := (num / den)%Z in
      let r := (num mod den)%Z in
      let n := match (2 * r ?= den)%Z with
               | Lt => q
               | Gt => (q + 1)%Z
               | Eq => if Z.even q then q else (q + 1)%Z
               end in
      if (n <? 2 ^ 53)%Z
      then let y := (float_of_Z n / 10000)%float in
           if s then PrimFloat.opp y else y
      else x
  | _ => x
  end.

(** ** Exceptions *)

Inductive PyExc : Type :=
| ZeroDivisionError
| ValueError (msg : string)
| TypeError
| NotImplementedError (msg : string).

Inductive exc (A : Type) : Type :=
| Ok (a : A)
| Raise (e : PyExc).

Arguments Ok {A} a.
Arguments Raise {A} e.

Definition bind {A B : Type} (c : exc A) (k : A -> exc B) : exc B :=
  match c with
  | Ok a => k a
  | Raise e => Raise e
  end.

Notation "x <- c ;; k" := (bind c (fun x => k))
  (at level 61, c at next level, right associativity).

(** [try: body except Exception: return dflt] *)
Definition try_except {A : Type} (body : exc A) (dflt : A) : A :=
  match body with
  | Ok a => a
  | Raise _ => dflt
  end.

(** True division of two Python floats. *)
Definition py_div (a b : float) : exc float :=
  if feq b 0 then Raise ZeroDivisionError else Ok (a / b)%float.

(** True division of a Python float by an [int]: it raises when the
    integer is zero. *)
Definition py_div_int (a : float) (n : Z) : exc float :=
  if (n =? 0)%Z then Raise ZeroDivisionError else Ok (a / float_of_Z n)%float.

(** ** Values and dictionaries *)

Inductive Val : Type :=
| VNone
| VInt (z : Z)
| VFloat (f : float)
| VStr (s : string)
| VTime (t : Z)
| VList (l : list Val)
| VDict (d : list (string * Val)).

Definition Dict : Type := list (string * Val).

Fixpoint dget {A : Type} (k : string) (d : list (string * A)) : option A :=
  match d with
  | [] => None
  | (k', v) :: t => if String.eqb k k' then Some v else dget k t
  end.

(** [d[k] = v]: the value is replaced in place, a new key goes last. *)
Fixpoint dset {A : Type} (k : string) (v : A) (d : list (string * A))
  : list (string * A) :=
  match d with
  | [] => [(k, v)]
  | (k', v') :: t =>
      if String.eqb k k' then (k, v) :: t else (k', v') :: dset k v t
  end.

(** [d.update(e)], also [{**d, **e}]. *)
Definition dupdate {A : Type} (d e : list (string * A)) : list (string * A) :=
  fold_left (fun acc kv => dset (fst kv) (snd kv) acc) e d.

Definition nonempty {A : Type} (l : list A) : bool :=
  match l with
  | [] => false
  | _ :: _ => true
  end.

(** Truth value of a Python object. *)
Definition truthy (v : Val) : bool :=
  match v with
  | VNone => false
  | VInt z => negb (z =? 0)%Z
  | VFloat f => fne f 0
  | VStr s => negb (String.eqb s "")
  | VTime _ => true
  | VList l => nonempty l
  | VDict d => nonempty d
  end.

(** [d.get(k)]: an absent key reads as [None]. *)
Definition get_or_none (k : string) (d : Dict) : Val :=
  match dget k d with
  | Some v => v
  | None => VNone
  end.

Definition get_or (k : string) (dflt : Val) (d : Dict) : Val :=
  match dget k d with
  | Some v => v
  | None => dflt
  end.

(** [round(v, 4)]: an [int] rounds to itself, a float as [round4]. *)
Definition py_round4 (v : Val) : exc Val :=
  match v with
  | VInt z => Ok (VInt z)
  | VFloat f => Ok (VFloat (round4 f))
  | _ => Raise TypeError
  end.

(** [v * w] for a float [w], and [a + b], on numbers only. *)
Definition py_mul_float (v : Val) (w : float) : exc Val :=
  match v with
  | VInt z => Ok (VFloat (float_of_Z z * w)%float)
  | VFloat f => Ok (VFloat (f * w)%float)
  | _ => Raise TypeError
  end.

Definition py_add (a b : Val) : exc Val :=
  match a, b with
  | VInt x, VInt y => Ok (VInt (x + y))
  | VInt x, VFloat g => Ok (VFloat (float_of_Z x + g)%float)
  | VFloat f, VInt y => Ok (VFloat (f + float_of_Z y)%float)
  | VFloat f, VFloat g => Ok (VFloat (f + g)%float)
  | _, _ => Raise TypeError
  end.

(** [sum(items)], from the integer 0. *)
Fixpoint py_sum_from (acc : Val) (items : list (exc Val)) : exc Val :=
  match items with
  | [] => Ok acc
  | item :: t => x <- item ;; acc' <- py_add acc x ;; py_sum_from acc' t
  end.

Definition py_sum (items : list (exc Val)) : exc Val := py_sum_from (VInt 0) items.

(** ** Price bars, frames and series *)

Record Bar : Type := mkBar
  { Date : Z; Open : float; High : float; Low : float; Close : float;
    Volume : Z }.

Definition DataFrame : Type := list Bar.

(** A pandas Series of floats: index label (a datetime) and value. *)
Definition Series : Type := list (Z * float).

Definition values (s : Series) : list float := map snd s.

Definition day_ms : Z := 86400000.
Definition hour_ms : Z := 3600000.

(** [t.date()] as a day number. *)
Definition date_of (t : Z) : Z := (t / day_ms)%Z.

Definition close_series (df : DataFrame) : Series :=
  map (fun b => (Date b, Close b)) df.

(** [Series.ffill()]: a missing value takes the last valid one before it;
    leading missing values stay. *)
Fixpoint ffill_from (last : option float) (s : Series) : Series :=
  match s with
  | [] => []
  | (d, x) :: t =>
      if is_nan x
      then (d, match last with Some y => y | None => x end) :: ffill_from last t
      else (d, x) :: ffill_from (Some x) t
  end.

Definition ffill (s : Series) : Series := ffill_from None s.

(** [data / data.shift(1) - 1], [prev] being the shifted value. *)
Fixpoint pct_from (prev : float) (s : Series) : Series :=
  match s with
  | [] => []
  | (d, x) :: t => (d, (x / prev - 1)%float) :: pct_from x t
  end.

(** [Series.pct_change()] of pandas 2.x: missing values are padded, the
    series is divided by itself shifted by one row (the first row is
    divided by NaN) and one is subtracted. *)
Definition pct_change (s : Series) : Series := pct_from nan (ffill s).

(** [Series.dropna()]: only NaN counts as missing, an infinity stays. *)
Definition dropna (s : Series) : Series :=
  filter (fun p => negb (is_nan (snd p))) s.

(** The value a series holds under a date. *)
Definition lookup_date (s : Series) (d : Z) : option float :=
  option_map snd (find (fun p => (fst p =? d)%Z) s).

(** The rows of [a] and [b] on the dates the two indexes share
    ([a.index.intersection(b.index)], then [a.loc[...]] and [b.loc[...]]),
    as pairs of values. *)
Definition aligned (a b : Series) : list (float * float) :=
  flat_map (fun p => match lookup_date b (fst p) with
                     | Some y => [(snd p, y)]
                     | None => []
                     end) a.

(** The returns series both classes derive from a frame:
    [df['Close'].pct_change().dropna()]. *)
Definition returns_of (df : DataFrame) : Series :=
  dropna (pct_change (close_series df)).

(** ** Reductions *)

Definition fsum (l : list float) : float := fold_left PrimFloat.add l 0%float.

(** [mean()]; of an empty list it is [0/0], NaN. *)
Definition mean (l : list float) : float :=
  (fsum l / float_of_nat (List.length l))%float.

(** Variance with [ddof] delta degrees of freedom, as pandas computes it;
    NaN when there are not more than [ddof] values. *)
Definition var_ddof (ddof : nat) (l : list float) : float :=
  if (List.length l <=? ddof)%nat then nan
  else
    let avg := mean l in
    (fsum (map (fun x => (avg - x) * (avg - x)) l)
     / float_of_nat (List.length l - ddof))%float.

(** [Series.std()], sample standard deviation ([ddof=1]). *)
Definition series_std (l : list float) : float := PrimFloat.sqrt (var_ddof 1 l).

(** [np.var(a)], population variance ([ddof=0]). *)
Definition np_var (l : list float) : float :=
  let avg := mean l in
  mean (map (fun x => (x - avg) * (x - avg))%float l).

(** [np.cov(a, b)[0][1]]: sample covariance, the sum of products scaled
    by [1 / (n - 1)]. *)
Definition np_cov01 (a b : list float) : float :=
  let ma := mean a in
  let mb := mean b in
  (fsum (map (fun p => (fst p - ma) * (snd p - mb)) (combine a b))
   * (1 / float_of_nat (List.length a - 1)))%float.

Fixpoint insert_sorted (x : float) (l : list float) : list float :=
  match l with
  | [] => [x]
  | y :: t => if fle x y then x :: y :: t else y :: insert_sorted x t
  end.

Definition sort_floats (l : list float) : list float :=
  fold_right insert_sorted [] l.

(** [np.percentile(a, q)] with the default linear interpolation: the
    virtual index [(n - 1) * q / 100], its floor and the interpolation
    [_lerp] between the two neighbours. *)
Definition np_percentile (a : list float) (q : float) : float :=
  let arr := sort_floats a in
  let n := List.length arr in
  let virtual_index := (float_of_nat (n - 1) * (q / 100))%float in
  let previous_index := Z.to_nat (floor_Z virtual_index) in
  let next_index := Nat.min (previous_index + 1) (n - 1) in
  let gamma := (virtual_index - float_of_nat previous_index)%float in
  let lo := nth previous_index arr nan in
  let hi := nth next_index arr nan in
  let diff_b_a := (hi - lo)%float in
  if fge gamma 0.5 then (hi - diff_b_a * (1 - gamma))%float
  else (lo + diff_b_a * gamma)%float.

(** [(1 + returns).cumprod()] *)
Fixpoint cumprod_from (acc : float) (l : list float) : list float :=
  match l with
  | [] => []
  | x :: t => let acc' := (acc * (1 + x))%float in acc' :: cumprod_from acc' t
  end.

Definition cumprod1 (l : list float) : list float := cumprod_from 1%float l.

(** [expanding().max()]: the running maximum. *)
Fixpoint expanding_max_from (m : float) (l : list float) : list float :=
  match l with
  | [] => []
  | x :: t =>
      let m' := if is_nan m then x else if flt m x then x else m in
      m' :: expanding_max_from m' t
  end.

Definition expanding_max (l : list float) : list float :=
  expanding_max_from nan l.

(** [min()] and [max()] skip missing values; NaN on an empty series. *)
Definition series_min (l : list float) : float :=
  match filter (fun x => negb (is_nan x)) l with
  | [] => nan
  | x :: t => fold_left (fun m y => if flt y m then y else m) t x
  end.

Definition series_max (l : list float) : float :=
  match filter (fun x => negb (is_nan x)) l with
  | [] => nan
  | x :: t => fold_left (fun m y => if flt m y then y else m) t x
  end.

(** The maximum drawdown of both classes:
    [cumulative = (1 + returns).cumprod()],
    [rolling_max = cumulative.expanding().max()],
    [((cumulative - rolling_max) / rolling_max).min()]. *)
Definition max_drawdown_of (returns : list float) : float :=
  let cumulative := cumprod1 returns in
  let rolling_max := expanding_max cumulative in
  series_min (map (fun p => ((fst p - snd p) / snd p)%float)
                  (combine cumulative rolling_max)).

(** [s.endswith(suffix)] *)
Definition endswith (s suffix : string) : bool :=
  let n := String.length s in
  let k := String.length suffix in
  (k <=? n)%nat && String.eqb (substring (n - k) k s) suffix.

(** ** The five-level scoring, from the words of the specification

    Three independent sub-scores in 0..3 are added; the total in 0..9 is
    mapped to a label. *)

Module Spec.

Definition vol_score (volatility : float) : nat :=
  if fgt volatility 0.40 then 3
  else if fgt volatility 0.25 then 2
  else if fgt volatility 0.15 then 1
  else 0.

Definition drawdown_score (max_drawdown : float) : nat :=
  if flt max_drawdown (-0.30) then 3
  else if flt max_drawdown (-0.20) then 2
  else if flt max_drawdown (-0.10) then 1
  else 0.

Definition var_score (var_95 : float) : nat :=
  if flt var_95 (-0.05) then 3
  else if flt var_95 (-0.03) then 2
  else if flt var_95 (-0.02) then 1
  else 0.

Definition risk_score (volatility max_drawdown var_95 : float) : nat :=
  vol_score volatility + drawdown_score max_drawdown + var_score var_95.

Definition level_of_score (s : nat) : string :=
  if (7 <=? s)%nat then "Very High"
  else if (5 <=? s)%nat then "High"
  else if (3 <=? s)%nat then "Medium"
  else if (1 <=? s)%nat then "Low"
  else "Very Low".

Definition risk_level (volatility max_drawdown var_95 : float) : string :=
  level_of_score (risk_score volatility max_drawdown var_95).

(** Covariance and variance of two lists of equal length, as averages of
    products of deviations from the means; the variance of a series is its
    covariance with itself. *)
Definition covariance (a b : list float) : float :=
  let ma := mean a in
  let mb := mean b in
  mean (map (fun p => (fst p - ma) * (snd p - mb))%float (combine a b)).

Definition variance (b : list float) : float := covariance b b.

(** Beta, from the words of the specification: the two series are
    aligned on their common dates (intersection by date key); with fewer
    than 10 aligned points, or a benchmark variance of 0, beta is absent;
    else it is the covariance of instrument and benchmark over the
    variance of the benchmark. *)
Definition beta (instrument benchmark : Series) : option float :=
  let rows := aligned instrument benchmark in
  if (List.length rows <? 10)%nat then None
  else
    let v := variance (map snd rows) in
    if feq v 0 then None
    else Some (covariance (map fst rows) (map snd rows) / v)%float.

End Spec.

(** * [MCPDatabaseServer] (mcp_servers/db_server.py)

    The server is a state: every method takes the server and returns it
    with its result.  With float frames and a working store no statement
    of these methods raises, so their [except] branches are not taken and
    the methods are written without the exception monad. *)

Module DbServer.

(** A document of the collection [historical_prices]. *)
Record PriceDoc : Type := mkPriceDoc
  { pd_symbol : string; pd_date : Z;
    open_price : float; high_price : float; low_price : float;
    close_price : float; pd_volume : Z; pd_timestamp : Z }.

(** The two collections the risk path reads and writes.  A document of
    [volatility_metrics] is kept without its [_id], which is what
    [_get_recent_analysis] hands out after [result.pop('_id')]. *)
Record Database : Type := mkDatabase
  { historical_prices : list PriceDoc;
    volatility_metrics : list Dict }.

(** The server object.  [db] is [self.db]: [None] in mock mode, a pymongo
    [Database] handle (shown with the documents behind it) once a URL was
    given.  [upstream_calls] is a ghost log of the [history] requests sent
    to the quote source (ticker, period), newest first. *)
Record Server : Type := mkServer
  { db : option Database;
    upstream_calls : list (string * string) }.

(** What one call reads from outside: the quote source ([None] stands for
    a request that raises) and the clock.  A call is short next to the hour
    and the day it compares against, so one call reads one instant:
    [utcnow] for [datetime.utcnow()], [now] for [datetime.now()]. *)
Record Env : Type := mkEnv
  { yf_history : string -> string -> option DataFrame;
    utcnow : Z;
    now : Z }.

(** The text pymongo raises with when a [Database] is tested for truth. *)
Definition database_bool_text : string :=
  "Database objects do not implement truth value testing or bool(). Please compare with None instead: database is not None".

(** [bool(self.db)]: [None] is false; a [Database] of pymongo 4.6, the
    version the repository installs, refuses the test and raises. *)
Definition truth_of_db (d : option Database) : exc bool :=
  match d with
  | None => Ok false
  | Some _ => Raise (NotImplementedError database_bool_text)
  end.

Definition _classify_risk (volatility max_drawdown var_95 : float) : string :=
  let risk_score := 0 in
  let risk_score :=
    if fgt volatility 0.40 then risk_score + 3
    else if fgt volatility 0.25 then risk_score + 2
    else if fgt volatility 0.15 then risk_score + 1
    else risk_score in
  let risk_score :=
    if flt max_drawdown (-0.30) then risk_score + 3
    else if flt max_drawdown (-0.20) then risk_score + 2
    else if flt max_drawdown (-0.10) then risk_score + 1
    else risk_score in
  let risk_score :=
    if flt var_95 (-0.05) then risk_score + 3
    else if flt var_95 (-0.03) then risk_score + 2
    else if flt var_95 (-0.02) then risk_score + 1
    else risk_score in
  if (7 <=? risk_score)%nat then "Very High"
  else if (5 <=? risk_score)%nat then "High"
  else if (3 <=? risk_score)%nat then "Medium"
  else if (1 <=? risk_score)%nat then "Low"
  else "Very Low".

(** A market proxy stands in for the benchmark: assumed market volatility
    0.20 and assumed correlation 0.7. *)
Definition _calculate_beta_simplified (returns : Series) : option float :=
  let market_volatility := 0.20%float in
  let correlation_with_market := 0.7%float in
  let stock_volatility := (series_std (values returns) * PrimFloat.sqrt 252)%float in
  Some (correlation_with_market * (stock_volatility / market_volatility))%float.

Definition insufficient : Dict :=
  [("error", VStr "Insufficient data for risk calculation")].

(** [df['Close'].iloc[-1] - df['Close'].iloc[-2] if len(df) > 1 else 0] *)
Definition price_change (df : DataFrame) : Val :=
  match rev df with
  | last :: prev :: _ => VFloat (Close last - Close prev)%float
  | _ => VInt 0
  end.

Definition _calculate_risk_metrics (df : DataFrame) : Dict :=
  let returns := returns_of df in
  if (List.length returns <? 2)%nat then insufficient
  else
    let r := values returns in
    let volatility := (series_std r * PrimFloat.sqrt 252)%float in
    let mean_return := (mean r * 252)%float in
    let risk_free_rate := 0.06%float in
    let sharpe_ratio :=
      if fgt volatility 0 then ((mean_return - risk_free_rate) / volatility)%float
      else 0%float in
    let var_95 := np_percentile r 5 in
    let var_99 := np_percentile r 1 in
    let max_drawdown := max_drawdown_of r in
    let beta := _calculate_beta_simplified returns in
    let risk_level := _classify_risk volatility max_drawdown var_95 in
    [ ("volatility", VFloat volatility);
      ("annualized_return", VFloat mean_return);
      ("sharpe_ratio", VFloat sharpe_ratio);
      ("var_95", VFloat var_95);
      ("var_99", VFloat var_99);
      ("max_drawdown", VFloat max_drawdown);
      ("beta", match beta with
               | Some b => if fne b 0 then VFloat b else VNone
               | None => VNone
               end);
      ("risk_level", VStr risk_level);
      ("data_points", VInt (Z.of_nat (List.length returns)));
      ("last_price", VFloat (Close (last df (mkBar 0 nan nan nan nan 0))));
      ("price_change", price_change df) ].

Definition period_days (period : string) : Z :=
  if String.eqb period "1d" then 1
  else if String.eqb period "5d" then 5
  else if String.eqb period "1mo" then 30
  else if String.eqb period "3mo" then 90
  else if String.eqb period "6mo" then 180
  else if String.eqb period "1y" then 365
  else if String.eqb period "2y" then 730
  else 30.

(** [sort=[("date", 1)]]: ascending by date, equal dates in stored order. *)
Fixpoint insert_by_date (d : PriceDoc) (l : list PriceDoc) : list PriceDoc :=
  match l with
  | [] => [d]
  | e :: t =>
      if (pd_date d <? pd_date e)%Z then d :: e :: t
      else e :: insert_by_date d t
  end.

Definition sort_by_date (l : list PriceDoc) : list PriceDoc :=
  fold_left (fun acc d => insert_by_date d acc) l [].

Definition row_of_doc (doc : PriceDoc) : Bar :=
  {| Date := pd_date doc; Open := open_price doc; High := high_price doc;
     Low := low_price doc; Close := close_price doc; Volume := pd_volume doc |}.

(** The test [if not self.db] stands before the [try]: what it raises
    leaves the method.  Inside the [try] everything is caught and gives
    [None]. *)
Definition _get_data_from_db (env : Env) (srv : Server)
    (symbol period : string) : exc (option DataFrame) :=
  db_is_set <- truth_of_db (db srv) ;;
  if negb db_is_set then Ok None
  else
    match db srv with
    | None => Ok None
    | Some d =>
        let days := period_days period in
        let start_date := (now env - days * day_ms)%Z in
        let cursor :=
          sort_by_date
            (filter (fun doc => String.eqb (pd_symbol doc) symbol
                                && (start_date <=? pd_date doc)%Z)
                    (historical_prices d)) in
        let data := map row_of_doc cursor in
        if nonempty data then Ok (Some data) else Ok None
    end.

(** The request is sent under the ticker with its exchange suffix (both
    branches of the test on the known symbols append ".NS"); an empty
    frame and a request that raises both give [None]. *)
Definition _fetch_data_from_api (env : Env) (srv : Server)
    (symbol period : string) : Server * option DataFrame :=
  let symbol_with_suffix :=
    if negb (endswith symbol ".NS" || endswith symbol ".BO")
    then symbol ++ ".NS" else symbol in
  let srv' := {| db := db srv;
                 upstream_calls := (symbol_with_suffix, period) :: upstream_calls srv |} in
  match yf_history env symbol_with_suffix period with
  | Some df => if nonempty df then (srv', Some df) else (srv', None)
  | None => (srv', None)
  end.

(** [insert_many(documents, ordered=False)] under the unique index on
    (symbol, date): a document whose key is present is skipped, the others
    are inserted; the error raised for the duplicates is swallowed. *)
Definition insert_price (coll : list PriceDoc) (doc : PriceDoc) : list PriceDoc :=
  if existsb (fun e => String.eqb (pd_symbol e) (pd_symbol doc)
                       && (pd_date e =? pd_date doc)%Z) coll
  then coll else coll ++ [doc].

Definition _store_price_data_bulk (env : Env) (srv : Server)
    (symbol : string) (df : DataFrame) : exc Server :=
  db_is_set <- truth_of_db (db srv) ;;
  if negb db_is_set then Ok srv
  else
    match db srv with
    | None => Ok srv
    | Some d =>
        let documents :=
          map (fun row =>
                 {| pd_symbol := symbol; pd_date := Date row;
                    open_price := Open row; high_price := High row;
                    low_price := Low row; close_price := Close row;
                    pd_volume := Volume row; pd_timestamp := utcnow env |}) df in
        Ok {| db := Some {| historical_prices :=
                              fold_left insert_price documents (historical_prices d);
                            volatility_metrics := volatility_metrics d |};
              upstream_calls := upstream_calls srv |}
    end.

(** [df.index.max()] *)
Definition max_date (df : DataFrame) : Z :=
  match df with
  | [] => 0%Z
  | b :: t => fold_left (fun m r => Z.max m (Date r)) t (Date b)
  end.

(** The body of [_get_historical_data], inside its [try]: the server as
    the calls made so far leave it, and the frame or what was raised. *)
Definition _get_historical_data_body (env : Env) (srv : Server)
    (symbol period : string) : Server * exc (option DataFrame) :=
  match _get_data_from_db env srv symbol period with
  | Raise e => (srv, Raise e)
  | Ok df =>
      let recent :=
        match df with
        | Some ((_ :: _) as rows) =>
            let last_date := max_date rows in
            let days_old := (date_of (now env) - date_of last_date)%Z in
            (days_old <=? 1)%Z
        | _ => false
        end in
      if recent then (srv, Ok df)
      else
        let (srv1, fresh_df) := _fetch_data_from_api env srv symbol period in
        match fresh_df with
        | Some ((_ :: _) as fresh) =>
            match _store_price_data_bulk env srv1 symbol fresh with
            | Raise e => (srv1, Raise e)
            | Ok srv2 => (srv2, Ok (Some fresh))
            end
        | _ => (srv1, Ok df)
        end
  end.

(** [except Exception as e: ... return None] *)
Definition _get_historical_data (env : Env) (srv : Server)
    (symbol period : string) : Server * option DataFrame :=
  let (srv1, df) := _get_historical_data_body env srv symbol period in
  (srv1, try_except df None).

(** The filter of [find_one]:
    [{symbol, period, timestamp: {$gte: one_hour_ago}}]. *)
Definition matches_key (symbol period : string) (doc : Dict) : bool :=
  match dget "symbol" doc, dget "period" doc with
  | Some (VStr s), Some (VStr p) => String.eqb s symbol && String.eqb p period
  | _, _ => false
  end.

Definition timestamp_of (doc : Dict) : option Z :=
  match dget "timestamp" doc with
  | Some (VTime t) => Some t
  | _ => None
  end.

Definition recent_enough (one_hour_ago : Z) (doc : Dict) : bool :=
  match timestamp_of doc with
  | Some t => (one_hour_ago <=? t)%Z
  | None => false
  end.

(** [sort=[("timestamp", -1)]]: the document with the greatest timestamp,
    the first stored among equals. *)
Fixpoint newest (best : Dict) (l : list Dict) : Dict :=
  match l with
  | [] => best
  | d :: t =>
      match timestamp_of best, timestamp_of d with
      | Some tb, Some td => if (tb <? td)%Z then newest d t else newest best t
      | _, _ => newest best t
      end
  end.

Definition find_one_newest (l : list Dict) : option Dict :=
  match l with
  | [] => None
  | d :: t => Some (newest d t)
  end.

Definition _get_recent_analysis (env : Env) (srv : Server)
    (symbol period : string) : exc (option Dict) :=
  db_is_set <- truth_of_db (db srv) ;;
  if negb db_is_set then Ok None
  else
    match db srv with
    | None => Ok None
    | Some d =>
        let one_hour_ago := (utcnow env - hour_ms)%Z in
        Ok (find_one_newest
              (filter (fun doc => matches_key symbol period doc
                                  && recent_enough one_hour_ago doc)
                      (volatility_metrics d)))
    end.

Definition _store_risk_analysis (env : Env) (srv : Server)
    (symbol period : string) (metrics : Dict) : exc Server :=
  db_is_set <- truth_of_db (db srv) ;;
  if negb db_is_set then Ok srv
  else
    match db srv with
    | None => Ok srv
    | Some d =>
        let doc :=
          dupdate [("symbol", VStr symbol); ("period", VStr period);
                   ("timestamp", VTime (utcnow env))] metrics in
        Ok {| db := Some {| historical_prices := historical_prices d;
                            volatility_metrics := volatility_metrics d ++ [doc] |};
              upstream_calls := upstream_calls srv |}
    end.

(** The body of [analyze_risk], inside its [try]. *)
Definition analyze_risk_body (env : Env) (srv : Server) (symbol period : string)
  : Server * exc (option Dict) :=
  match _get_recent_analysis env srv symbol period with
  | Raise e => (srv, Raise e)
  | Ok (Some ((_ :: _) as recent_analysis)) => (srv, Ok (Some recent_analysis))
  | Ok _ =>
      let (srv1, df) := _get_historical_data env srv symbol period in
      match df with
      | Some ((_ :: _) as rows) =>
          let risk_metrics := _calculate_risk_metrics rows in
          match _store_risk_analysis env srv1 symbol period risk_metrics with
          | Raise e => (srv1, Raise e)
          | Ok srv2 => (srv2, Ok (Some risk_metrics))
          end
      | _ => (srv1, Ok None)
      end
  end.

(** [except Exception as e: ... return None] *)
Definition analyze_risk (env : Env) (srv : Server) (symbol period : string)
  : Server * option Dict :=
  let (srv1, result) := analyze_risk_body env srv symbol period in
  (srv1, try_except result None).

(** The ticker [_fetch_data_from_api] asks for, and the server once that
    request is logged. *)
Definition ticker_of (symbol : string) : string :=
  if negb (endswith symbol ".NS" || endswith symbol ".BO")
  then symbol ++ ".NS" else symbol.

Definition logged (srv : Server) (ticker period : string) : Server :=
  {| db := db srv; upstream_calls := (ticker, period) :: upstream_calls srv |}.

(** The document [_store_risk_analysis] writes at time [t]. *)
Definition stored_doc (symbol period : string) (t : Z) (metrics : Dict) : Dict :=
  dupdate [("symbol", VStr symbol); ("period", VStr period);
           ("timestamp", VTime t)] metrics.

End DbServer.

(** * [RiskAgent] (agents/risk_agent.py) *)

Module RiskAgent.

(** What the agent reads from outside: the quote source ([None] stands for
    a request that raises), the reply of the DB server to the RPC
    [analyze_risk] (the [result] member when the reply has one, else
    [None]) and the clock. *)
Record Env : Type := mkEnv
  { yf_history : string -> string -> option DataFrame;
    mcp_analyze_risk : string -> string -> option Dict;
    now : Z }.

Definition high_vol_threshold : float := 0.3.
Definition high_drawdown_threshold : float := -0.2.
Definition high_var_threshold : float := -0.03.
Definition medium_vol_threshold : float := 0.2.
Definition medium_drawdown_threshold : float := -0.1.
Definition medium_var_threshold : float := -0.02.

Definition high_risk_count (volatility max_drawdown var_95 : float) : nat :=
  (if fgt volatility high_vol_threshold then 1 else 0)
  + (if flt max_drawdown high_drawdown_threshold then 1 else 0)
  + (if flt var_95 high_var_threshold then 1 else 0).

(** A chained comparison [a < x <= b] is [a < x and x <= b]. *)
Definition medium_risk_count (volatility max_drawdown var_95 : float) : nat :=
  (if flt medium_vol_threshold volatility && fle volatility high_vol_threshold
   then 1 else 0)
  + (if flt medium_drawdown_threshold max_drawdown
        && fle max_drawdown high_drawdown_threshold then 1 else 0)
  + (if flt medium_var_threshold var_95 && fle var_95 high_var_threshold
     then 1 else 0).

Definition _classify_risk_level (volatility max_drawdown var_95 : float) : string :=
  let high := high_risk_count volatility max_drawdown var_95 in
  let medium := medium_risk_count volatility max_drawdown var_95 in
  if (2 <=? high)%nat then "HIGH"
  else if (1 <=? high)%nat || (2 <=? medium)%nat then "MEDIUM"
  else "LOW".

Definition _get_risk_from_mcp (env : Env) (symbol period : string) : option Dict :=
  mcp_analyze_risk env symbol period.

(** A row of the list handed out: the date is cut to its day
    ([str(date.date())], read back by [pd.to_datetime]). *)
Definition row_of_hist (b : Bar) : Bar :=
  {| Date := (date_of (Date b) * day_ms)%Z; Open := Open b; High := High b;
     Low := Low b; Close := Close b; Volume := Volume b |}.

(** NSE ticker first, BSE ticker when that frame is empty; [None] when
    both are empty or a request raises. *)
Definition _get_historical_data (env : Env) (symbol period : string)
  : option DataFrame :=
  match yf_history env (symbol ++ ".NS") period with
  | None => None
  | Some hist =>
      let hist2 :=
        if nonempty hist then Some hist
        else yf_history env (symbol ++ ".BO") period in
      match hist2 with
      | None => None
      | Some h => if nonempty h then Some (map row_of_hist h) else None
      end
  end.

(** A label of a [DatetimeIndex]: a timestamp without a time zone, which
    is what [pd.to_datetime] makes of the day texts of the agent's rows,
    or one with a time zone, which is what the quote source labels its
    bars with.  Labels of the two kinds are never equal. *)
Inductive Stamp : Type :=
| Naive (t : Z)
| Aware (t : Z).

Definition stamp_eqb (a b : Stamp) : bool :=
  match a, b with
  | Naive x, Naive y => (x =? y)%Z
  | Aware x, Aware y => (x =? y)%Z
  | _, _ => false
  end.

(** [a.intersection(b)] *)
Definition intersection (a b : list Stamp) : list Stamp :=
  filter (fun x => existsb (stamp_eqb x) b) a.

(** [s.loc[labels]] on a series whose index holds labels of the kind
    [kind]: the value under each label, [None] when one is missing (a
    [KeyError]). *)
Fixpoint loc (kind : Z -> Stamp) (s : Series) (labels : list Stamp)
  : option (list float) :=
  match labels with
  | [] => Some []
  | l :: rest =>
      match find (fun p => stamp_eqb (kind (fst p)) l) s, loc kind s rest with
      | Some p, Some vs => Some (snd p :: vs)
      | _, _ => None
      end
  end.

(** The returns of the stock carry the labels of the agent's own frame,
    the returns of the index those of the quote source. *)
Definition _calculate_beta (env : Env) (stock_returns : Series) : option float :=
  match yf_history env "^NSEI" "1mo" with
  | None => None
  | Some nifty_hist =>
      if negb (nonempty nifty_hist) then None
      else
        let nifty_returns := returns_of nifty_hist in
        let common_dates :=
          intersection (map (fun p => Naive (fst p)) stock_returns)
                       (map (fun p => Aware (fst p)) nifty_returns) in
        if (List.length common_dates <? 10)%nat then None
        else
          match loc Naive stock_returns common_dates,
                loc Aware nifty_returns common_dates with
          | Some stock_aligned, Some market_aligned =>
              let covariance := np_cov01 stock_aligned market_aligned in
              let market_variance := np_var market_aligned in
              if fne market_variance 0
              then Some (covariance / market_variance)%float
              else None
          | _, _ => None
          end
  end.

Definition round_opt_beta (beta : option float) : Val :=
  match beta with
  | Some b => if fne b 0 then VFloat (round4 b) else VNone
  | None => VNone
  end.

(** The body of [_compute_risk_metrics]; the divisions of the price
    metrics are divisions of Python floats and raise on a zero divisor. *)
Definition _compute_risk_metrics_body (env : Env) (returns prices : Series)
  : exc Dict :=
  let r := values returns in
  let mean_return := mean r in
  let std_return := series_std r in
  let volatility := (std_return * PrimFloat.sqrt 252)%float in
  let var_95 := np_percentile r 5 in
  let var_99 := np_percentile r 1 in
  let cvar_95 := mean (filter (fun x => fle x var_95) r) in
  let cvar_99 := mean (filter (fun x => fle x var_99) r) in
  let max_drawdown := max_drawdown_of r in
  let risk_free_rate := (0.06 / 252)%float in
  let excess_returns := map (fun x => x - risk_free_rate)%float r in
  let sharpe_ratio :=
    if fne (series_std excess_returns) 0
    then VFloat (mean excess_returns / series_std excess_returns)%float
    else VInt 0 in
  let beta := _calculate_beta env returns in
  let current_price := last (values prices) nan in
  let price_52w_high := series_max (values prices) in
  let price_52w_low := series_min (values prices) in
  let risk_level := _classify_risk_level volatility max_drawdown var_95 in
  price_position <-
    py_div (current_price - price_52w_low) (price_52w_high - price_52w_low) ;;
  upside_potential <- py_div (price_52w_high - current_price) current_price ;;
  downside_risk <- py_div (current_price - price_52w_low) current_price ;;
  sharpe_rounded <- py_round4 sharpe_ratio ;;
  Ok [ ("volatility", VFloat (round4 volatility));
       ("var_95", VFloat (round4 var_95));
       ("var_99", VFloat (round4 var_99));
       ("cvar_95", VFloat (round4 cvar_95));
       ("cvar_99", VFloat (round4 cvar_99));
       ("max_drawdown", VFloat (round4 max_drawdown));
       ("sharpe_ratio", sharpe_rounded);
       ("beta", round_opt_beta beta);
       ("mean_return", VFloat (round4 mean_return));
       ("std_return", VFloat (round4 std_return));
       ("current_price", VFloat current_price);
       ("price_52w_high", VFloat price_52w_high);
       ("price_52w_low", VFloat price_52w_low);
       ("price_position", VFloat (round4 price_position));
       ("risk_level", VStr risk_level);
       ("upside_potential", VFloat (round4 upside_potential));
       ("downside_risk", VFloat (round4 downside_risk)) ].

Definition _compute_risk_metrics (env : Env) (returns prices : Series) : Dict :=
  try_except (_compute_risk_metrics_body env returns prices) [].

Definition first_date (df : DataFrame) : Z :=
  match df with
  | [] => 0%Z
  | b :: _ => Date b
  end.

Definition last_date (df : DataFrame) : Z :=
  Date (last df (mkBar 0 nan nan nan nan 0)).

(** ISO texts of datetimes are kept as the datetimes they denote. *)
Definition _calculate_risk_metrics (env : Env) (symbol period : string)
  : option Dict :=
  match _get_historical_data env symbol period with
  | None => None
  | Some historical_data =>
      if negb (nonempty historical_data) then None
      else
        let df := historical_data in
        let daily_returns := returns_of df in
        if (List.length daily_returns <? 10)%nat then None
        else
          let risk_metrics :=
            _compute_risk_metrics env daily_returns (close_series df) in
          Some (dupdate risk_metrics
                  [ ("symbol", VStr symbol);
                    ("period", VStr period);
                    ("data_points", VInt (Z.of_nat (List.length daily_returns)));
                    ("start_date", VTime (first_date df));
                    ("end_date", VTime (last_date df));
                    ("analysis_timestamp", VTime (now env)) ])
  end.

Definition analyze_volatility (env : Env) (symbol period : string)
  : option Dict :=
  match _get_risk_from_mcp env symbol period with
  | Some mcp_risk =>
      if nonempty mcp_risk then Some mcp_risk
      else _calculate_risk_metrics env symbol period
  | None => _calculate_risk_metrics env symbol period
  end.

(** [DataFrame.cov()] entry for two columns: the sample covariance over
    the dates on which both have a value; NaN with fewer than two. *)
Definition pair_cov (a b : Series) : float :=
  let rows := aligned a b in
  let n := List.length rows in
  if (n <? 2)%nat then nan
  else
    let ma := mean (map fst rows) in
    let mb := mean (map snd rows) in
    (fsum (map (fun p => (fst p - ma) * (snd p - mb)) rows)
     / float_of_nat (n - 1))%float.

Definition cov_matrix (cols : list Series) : list (list float) :=
  map (fun a => map (fun b => pair_cov a b) cols) cols.

Definition dot (u v : list float) : float :=
  fsum (map (fun p => (fst p * snd p)%float) (combine u v)).

(** The dict [returns_data]: one returns series per symbol with data. *)
Definition collect_returns (env : Env) (symbols : list string)
  : list (string * Series) :=
  fold_left
    (fun returns_data symbol =>
       match _get_historical_data env symbol "1mo" with
       | Some ((_ :: _) as historical) =>
           dset symbol (returns_of historical) returns_data
       | _ => returns_data
       end)
    symbols [].

(** [np.dot] raises when the number of weights is not the number of
    columns of the covariance matrix. *)
Definition _calculate_portfolio_volatility_body (env : Env)
    (symbols : list string) (weights : list float) : exc (option float) :=
  let returns_data := collect_returns env symbols in
  if (List.length returns_data <? 2)%nat then Ok None
  else
    let cov :=
      map (map (fun c => (c * 252)%float)) (cov_matrix (map snd returns_data)) in
    if negb (List.length weights =? List.length returns_data)%nat
    then Raise (ValueError "shapes not aligned")
    else
      let portfolio_variance := dot weights (map (fun row => dot row weights) cov) in
      Ok (Some (PrimFloat.sqrt portfolio_variance)).

Definition _calculate_portfolio_volatility (env : Env)
    (symbols : list string) (weights : list float) : option float :=
  try_except (_calculate_portfolio_volatility_body env symbols weights) None.

(** The dict [individual_risks]. *)
Definition collect_risks (env : Env) (symbols : list string)
  : list (string * Dict) :=
  fold_left
    (fun individual_risks symbol =>
       match analyze_volatility env symbol "1mo" with
       | Some risk_data =>
           if nonempty risk_data then dset symbol risk_data individual_risks
           else individual_risks
       | None => individual_risks
       end)
    symbols [].

Definition is_str (s : string) (v : Val) : bool :=
  match v with
  | VStr t => String.eqb t s
  | _ => false
  end.

Definition count_level (level : string) (risk_levels : list Val) : nat :=
  List.length (filter (is_str level) risk_levels).

Definition weights_mismatch : PyExc :=
  ValueError "Weights must match number of symbols".

(** The body of [analyze_portfolio_risk], inside its [try]. *)
Definition analyze_portfolio_risk_body (env : Env) (symbols : list string)
    (weights : option (list float)) : exc Dict :=
  weights <-
    match weights with
    | None =>
        w <- py_div_int 1 (Z.of_nat (List.length symbols)) ;;
        Ok (repeat w (List.length symbols))
    | Some ws => Ok ws
    end ;;
  if negb (List.length weights =? List.length symbols)%nat
  then Raise weights_mismatch
  else
    let individual_risks := collect_risks env symbols in
    if negb (nonempty individual_risks) then Ok []
    else
      let portfolio_volatility :=
        _calculate_portfolio_volatility env symbols weights in
      weighted_beta <-
        py_sum
          (flat_map
             (fun sw =>
                match dget (fst sw) individual_risks with
                | Some risk =>
                    if truthy (get_or_none "beta" risk)
                    then [py_mul_float (get_or "beta" (VFloat 1) risk) (snd sw)]
                    else []
                | None => []
                end)
             (combine symbols weights)) ;;
      weighted_sharpe <-
        py_sum
          (flat_map
             (fun sw =>
                match dget (fst sw) individual_risks with
                | Some risk =>
                    [py_mul_float (get_or "sharpe_ratio" (VFloat 0) risk) (snd sw)]
                | None => []
                end)
             (combine symbols weights)) ;;
      let risk_levels :=
        flat_map
          (fun symbol =>
             match dget symbol individual_risks with
             | Some risk => [get_or "risk_level" (VStr "MEDIUM") risk]
             | None => []
             end)
          symbols in
      let high := count_level "HIGH" risk_levels in
      let medium := count_level "MEDIUM" risk_levels in
      let low := count_level "LOW" risk_levels in
      let risk_distribution : Dict :=
        [ ("HIGH", VInt (Z.of_nat high));
          ("MEDIUM", VInt (Z.of_nat medium));
          ("LOW", VInt (Z.of_nat low)) ] in
      let n := float_of_nat (List.length symbols) in
      let portfolio_risk_level :=
        if fgt (float_of_nat high) (n * 0.3)%float then "HIGH"
        else if (0 <? high)%nat || fgt (float_of_nat medium) (n * 0.5)%float
             then "MEDIUM"
             else "LOW" in
      beta_rounded <- py_round4 weighted_beta ;;
      sharpe_rounded <- py_round4 weighted_sharpe ;;
      Ok [ ("portfolio_volatility",
            match portfolio_volatility with
            | Some v => if fne v 0 then VFloat (round4 v) else VNone
            | None => VNone
            end);
           ("weighted_beta", beta_rounded);
           ("weighted_sharpe_ratio", sharpe_rounded);
           ("portfolio_risk_level", VStr portfolio_risk_level);
           ("risk_distribution", VDict risk_distribution);
           ("individual_risks",
            VDict (map (fun kv => (fst kv, VDict (snd kv))) individual_risks));
           ("symbols", VList (map VStr symbols));
           ("weights", VList (map VFloat weights));
           ("analysis_timestamp", VTime (now env)) ].

(** [except Exception as e: ... return {}] *)
Definition analyze_portfolio_risk (env : Env) (symbols : list string)
    (weights : option (list float)) : Dict :=
  try_except (analyze_portfolio_risk_body env symbols weights) [].

(** The entry [portfolio_volatility] of the record:
    [round(v, 4) if v else None]. *)
Definition volatility_field (pv : option float) : Val :=
  match pv with
  | Some v => if fne v 0 then VFloat (round4 v) else VNone
  | None => VNone
  end.

(** The default weights: [[1.0 / len(symbols)] * len(symbols)]. *)
Definition equal_weights (symbols : list string) : list float :=
  repeat (1 / float_of_nat (List.length symbols))%float (List.length symbols).

End RiskAgent.

(** A price that is a positive finite number. *)
Definition pos_finite (x : float) : bool := flt 0 x && flt x infinity.

(** * Sample data *)

Module Sample.

(** Daily bars from day number [day] on, one per close. *)
Fixpoint bars_from (day : Z) (closes : list float) : DataFrame :=
  match closes with
  | [] => []
  | c :: t => mkBar (day * day_ms) c c c c 1000 :: bars_from (day + 1) t
  end.

(** Eleven closes, ten returns. *)
Definition closes11 : list float :=
  [100; 102; 101; 105; 103; 108; 106; 110; 107; 112; 109]%float.

Definition bars11 : DataFrame := bars_from 20000 closes11.
Definition bars9 : DataFrame := firstn 9 bars11.
Definition bars5 : DataFrame := firstn 5 bars11.
Definition bars1 : DataFrame := firstn 1 bars11.

(** A steadily rising series: volatility between 0.3 and 0.4, shallow
    drawdown and VaR. *)
Definition closes_rising : list float :=
  [100; 104; 103.5; 107.6; 107.1; 111.4; 110.8; 115.2; 114.6; 119.2; 118.6]%float.

Definition bars_rising : DataFrame := bars_from 20000 closes_rising.

Definition bars_zero_zero : DataFrame := bars_from 20000 [0; 0]%float.
Definition bars_zero_five : DataFrame := bars_from 20000 [0; 5]%float.

(** A constant benchmark. *)
Definition flat_bars : DataFrame := bars_from 20000 (repeat 1%float 12).

(** The start of the day after the last bar. *)
Definition t0 : Z := 20011 * day_ms.

(** The agent's world: [df] under the NSE ticker of X, a constant
    benchmark, nothing else, and a DB server that does not answer. *)
Definition agent_env (df : DataFrame) : RiskAgent.Env :=
  RiskAgent.mkEnv
    (fun ticker period =>
       if String.eqb ticker "X.NS" then Some df
       else if String.eqb ticker "^NSEI" then Some flat_bars
       else Some [])
    (fun _ _ => None)
    t0.

Definition no_data_env : RiskAgent.Env :=
  RiskAgent.mkEnv (fun _ _ => Some []) (fun _ _ => None) t0.

(** Every ticker has the eleven bars. *)
Definition twin_env : RiskAgent.Env :=
  RiskAgent.mkEnv (fun _ _ => Some bars11) (fun _ _ => None) t0.

(** The server's world at time [t]: [df] under the NSE ticker of X. *)
Definition db_env (df : DataFrame) (t : Z) : DbServer.Env :=
  DbServer.mkEnv
    (fun ticker period => if String.eqb ticker "X.NS" then Some df else Some [])
    t t.

Definition empty_server : DbServer.Server :=
  DbServer.mkServer (Some (DbServer.mkDatabase [] [])) [].

(** A server holding one analysis of X, two hours old at [t0]. *)
Definition stale_doc : Dict :=
  DbServer.stored_doc "X" "1mo" (t0 - 2 * hour_ms)
    (DbServer._calculate_risk_metrics bars11).

Definition stale_server : DbServer.Server :=
  DbServer.mkServer (Some (DbServer.mkDatabase [] [stale_doc])) [].

End Sample.

(** ** Orders and predicates of the statements *)

(** A key whose lexicographic order is the order of the numbers. *)
Definition sf_key (x : spec_float) : Z * Z * Z :=
  match x with
  | S754_infinity true => (-2, 0, 0)
  | S754_finite true m e => (-1, - e, - Zpos m)
  | S754_zero _ => (0, 0, 0)
  | S754_nan => (0, 0, 0)
  | S754_finite false m e => (1, e, Zpos m)
  | S754_infinity false => (2, 0, 0)
  end%Z.

Definition key_lt (a b : Z * Z * Z) : Prop :=
  let '(c1, e1, m1) := a in
  let '(c2, e2, m2) := b in
  (c1 < c2 \/ (c1 = c2 /\ (e1 < e2 \/ (e1 = e2 /\ m1 < m2))))%Z.

Definition key_le (a b : Z * Z * Z) : Prop :=
  let '(c1, e1, m1) := a in
  let '(c2, e2, m2) := b in
  (c1 < c2 \/ (c1 = c2 /\ (e1 < e2 \/ (e1 = e2 /\ m1 <= m2))))%Z.

(** A zero, a positive number or plus infinity. *)
Definition sf_nonneg (x : spec_float) : bool :=
  match x with
  | S754_zero _ => true
  | S754_finite s _ _ => negb s
  | S754_infinity s => negb s
  | S754_nan => false
  end.

(** The rank of a label of the five-level scale, 0 for Very Low. *)
Definition level_rank (level : string) : nat :=
  if String.eqb level "Very High" then 4
  else if String.eqb level "High" then 3
  else if String.eqb level "Medium" then 2
  else if String.eqb level "Low" then 1
  else 0.

(** The documents [_store_price_data_bulk] builds from a frame. *)
Definition docs_of (env : DbServer.Env) (symbol : string) (df : DataFrame)
  : list DbServer.PriceDoc :=
  map (fun row =>
         {| DbServer.pd_symbol := symbol; DbServer.pd_date := Date row;
            DbServer.open_price := Open row; DbServer.high_price := High row;
            DbServer.low_price := Low row; DbServer.close_price := Close row;
            DbServer.pd_volume := Volume row;
            DbServer.pd_timestamp := DbServer.utcnow env |}) df.

Definition has_exchange_suffix (ticker : string) : bool :=
  endswith ticker ".NS" || endswith ticker ".BO".

(** One of the divisors of the price metrics is zero: the range between
    the highest and the lowest close, or the latest close. *)
Definition zero_divisor (prices : Series) : bool :=
  feq (series_max (values prices) - series_min (values prices))%float 0
  || feq (last (values prices) nan) 0.

(** The six entries [_calculate_risk_metrics] of the agent adds to the
    computed metrics. *)
Definition bare_record (env : RiskAgent.Env) (symbol period : string)
    (df : DataFrame) : Dict :=
  [ ("symbol", VStr symbol);
    ("period", VStr period);
    ("data_points", VInt (Z.of_nat (List.length (returns_of df))));
    ("start_date", VTime (RiskAgent.first_date df));
    ("end_date", VTime (RiskAgent.last_date df));
    ("analysis_timestamp", VTime (RiskAgent.now env)) ].

(** One of the three labels the portfolio aggregation counts. *)
Definition agent_label (v : Val) : bool :=
  RiskAgent.is_str "HIGH" v || RiskAgent.is_str "MEDIUM" v
  || RiskAgent.is_str "LOW" v.

(** A record whose risk level was given by the DB server. *)
Definition server_labelled (risk : Dict) : Prop :=
  exists v d r,
    dget "risk_level" risk = Some (VStr (DbServer._classify_risk v d r)).

(** The quote source has bars for the symbol over one month. *)
Definition has_history (env : RiskAgent.Env) (symbol : string) : Prop :=
  exists b t, RiskAgent._get_historical_data env symbol "1mo" = Some (b :: t).

(** ** The rest of the DB server: correlations, price listing, requests *)

Module DbRequests.
Import DbServer.

(** A document of the collection [correlation_matrix]. *)
Record CorrDoc : Type := mkCorrDoc
  { symbol1 : string; symbol2 : string; correlation : Val; cd_timestamp : Z }.

(** The server with its third collection, which exists once [db] does. *)
Record Store : Type := mkStore
  { server : Server;
    correlation_matrix : list CorrDoc }.

(** ['_' in symbol_pair] and [symbol_pair.split('_', 1)]: the text before
    the first underscore and the text after it. *)
Fixpoint split_underscore (symbol_pair : string) : option (string * string) :=
  match symbol_pair with
  | EmptyString => None
  | String c rest =>
      if Ascii.eqb c "_" then Some (EmptyString, rest)
      else match split_underscore rest with
           | Some (symbol1, symbol2) => Some (String c symbol1, symbol2)
           | None => None
           end
  end.

Definition same_pair (s1 s2 : string) (e : CorrDoc) : bool :=
  String.eqb (symbol1 e) s1 && String.eqb (symbol2 e) s2.

(** [update_one({symbol1, symbol2}, {"$set": doc}, upsert=True)]: the
    first document of the pair takes the four fields of [doc]; without one
    [doc] is inserted. *)
Fixpoint update_one_upsert (doc : CorrDoc) (coll : list CorrDoc) : list CorrDoc :=
  match coll with
  | [] => [doc]
  | e :: t =>
      if same_pair (symbol1 doc) (symbol2 doc) e then doc :: t
      else e :: update_one_upsert doc t
  end.

(** The test [if not self.db] stands before the [try]: what it raises
    leaves the method. *)
Definition store_correlation_matrix (env : Env) (st : Store)
    (symbols : list string) (correlations : Dict) : exc (Store * bool) :=
  db_is_set <- truth_of_db (db (server st)) ;;
  if negb db_is_set then Ok (st, false)
  else
    let timestamp := utcnow env in
    let coll :=
      fold_left
        (fun coll kv =>
           match split_underscore (fst kv) with
           | Some (s1, s2) =>
               let correlation_doc :=
                 {| symbol1 := s1; symbol2 := s2;
                    correlation := snd kv; cd_timestamp := timestamp |} in
               update_one_upsert correlation_doc coll
           | None => coll
           end)
        correlations (correlation_matrix st) in
    Ok ({| server := server st; correlation_matrix := coll |}, true).

(** One entry of the price listing; the day text [%Y-%m-%d] is kept as
    the midnight it denotes. *)
Definition price_entry (row : Bar) : Val :=
  VDict [ ("date", VTime (date_of (Date row) * day_ms));
          ("open", VFloat (Open row));
          ("high", VFloat (High row));
          ("low", VFloat (Low row));
          ("close", VFloat (Close row));
          ("volume", VInt (Volume row)) ].

Definition get_historical_prices (env : Env) (srv : Server)
    (symbol period : string) : Server * Dict :=
  let (srv1, df) := _get_historical_data env srv symbol period in
  match df with
  | Some ((_ :: _) as rows) =>
      (srv1, [ ("symbol", VStr symbol);
               ("period", VStr period);
               ("data", VList (map price_entry rows)) ])
  | _ => (srv1, [("error", VStr ("No data available for " ++ symbol))])
  end.

(** A well-formed request, as the agents send it: [id] as given ([None]
    when absent), the method name ([None] when absent) and the members of
    the object [params]: a symbol that is a string, a period when there is
    one, and the two containers, with the defaults of [params.get] applied
    to them. *)
Record Request : Type := mkRequest
  { rq_id : Val;
    rq_method : option string;
    rq_symbol : string;
    rq_period : option string;
    rq_symbols : list string;
    rq_correlations : Dict }.

Definition period_or_default (period : option string) : string :=
  match period with
  | Some p => p
  | None => "1mo"
  end.

Definition method_is (method : option string) (name : string) : bool :=
  match method with
  | Some m => String.eqb m name
  | None => false
  end.

(** [f"{method}"] *)
Definition method_text (method : option string) : string :=
  match method with
  | Some m => m
  | None => "None"
  end.

(** [str(e)] in the handler of [handle_request].  What reaches it is
    raised with its text; the text of a [TypeError] depends on the operands
    and none is raised by the methods of the server. *)
Definition str_exc (e : PyExc) : string :=
  match e with
  | ZeroDivisionError => "float division by zero"
  | ValueError msg => msg
  | TypeError => ""
  | NotImplementedError msg => msg
  end.

(** The body of [handle_request], inside its [try].  [analyze_risk] and
    [get_historical_prices] catch what is raised inside them;
    [store_correlation_matrix] does not catch its test of the handle.
    The boolean of [store_correlation] is kept as the [int] it is in
    Python ([True] is 1). *)
Definition handle_request_body (env : Env) (st : Store) (request : Request)
  : Store * exc Dict :=
  let method := rq_method request in
  if method_is method "analyze_risk" then
    let symbol := rq_symbol request in
    let period := period_or_default (rq_period request) in
    let (srv1, result) := analyze_risk env (server st) symbol period in
    let st1 := {| server := srv1; correlation_matrix := correlation_matrix st |} in
    match result with
    | Some ((_ :: _) as result) =>
        (st1, Ok [ ("jsonrpc", VStr "2.0");
                   ("id", rq_id request);
                   ("result", VDict result) ])
    | _ =>
        (st1, Ok [ ("jsonrpc", VStr "2.0");
                   ("id", rq_id request);
                   ("error",
                    VDict [ ("code", VInt (-32603));
                            ("message",
                             VStr ("Failed to analyze risk for " ++ symbol)) ]) ])
    end
  else if method_is method "get_historical_prices" then
    let symbol := rq_symbol request in
    let period := period_or_default (rq_period request) in
    let (srv1, result) := get_historical_prices env (server st) symbol period in
    ({| server := srv1; correlation_matrix := correlation_matrix st |},
     Ok [ ("jsonrpc", VStr "2.0");
          ("id", rq_id request);
          ("result", VDict result) ])
  else if method_is method "store_correlation" then
    let symbols := rq_symbols request in
    let correlations := rq_correlations request in
    match store_correlation_matrix env st symbols correlations with
    | Raise e => (st, Raise e)
    | Ok (st1, result) =>
        (st1, Ok [ ("jsonrpc", VStr "2.0");
                   ("id", rq_id request);
                   ("result",
                    VDict [("success", VInt (if result then 1 else 0))]) ])
    end
  else
    (st, Ok [ ("jsonrpc", VStr "2.0");
              ("id", rq_id request);
              ("error",
               VDict [ ("code", VInt (-32601));
                       ("message",
                        VStr ("Method not found: " ++ method_text method)) ]) ]).

(** [except Exception as e:] the response with code -32603 and the text
    of the exception. *)
Definition handle_request (env : Env) (st : Store) (request : Request)
  : Store * Dict :=
  let (st1, response) := handle_request_body env st request in
  match response with
  | Ok r => (st1, r)
  | Raise e =>
      (st1, [ ("jsonrpc", VStr "2.0");
              ("id", rq_id request);
              ("error",
               VDict [ ("code", VInt (-32603));
                       ("message", VStr ("Internal error: " ++ str_exc e)) ]) ])
  end.

(** One of the three methods [handle_request] serves. *)
Definition known_method (method : option string) : bool :=
  method_is method "analyze_risk"
  || method_is method "get_historical_prices"
  || method_is method "store_correlation".

(** The member [error] of a response. *)
Definition error_member (code : Z) (message : string) : Val :=
  VDict [("code", VInt code); ("message", VStr message)].

End DbRequests.

(** ** The rest of the risk agent: the RPC it sends and the alerts *)

Module RiskAlerts.
Import RiskAgent.

(** The body [_get_risk_from_mcp] posts. *)
Definition mcp_request (symbol period : string) : DbRequests.Request :=
  {| DbRequests.rq_id := VInt 1;
     DbRequests.rq_method := Some "analyze_risk";
     DbRequests.rq_symbol := symbol;
     DbRequests.rq_period := Some period;
     DbRequests.rq_symbols := [];
     DbRequests.rq_correlations := [] |}.

(** What [_get_risk_from_mcp] hands out for a reply with status
    [status_code] and decoded body [data]:
    [data['result']] when the status is 200 and the member is there. *)
Definition result_of_reply (status_code : Z) (data : Dict) : option Val :=
  if (status_code =? 200)%Z then dget "result" data else None.

(** [v > y] and [v < y] for a float [y]: defined on numbers only, an
    [int] being compared as the float it converts to. *)
Definition py_gt (v : Val) (y : float) : exc bool :=
  match v with
  | VInt z => Ok (fgt (float_of_Z z) y)
  | VFloat f => Ok (fgt f y)
  | _ => Raise TypeError
  end.

Definition py_lt (v : Val) (y : float) : exc bool :=
  match v with
  | VInt z => Ok (flt (float_of_Z z) y)
  | VFloat f => Ok (flt f y)
  | _ => Raise TypeError
  end.

Definition decimal (n : Z) : string := NilZero.string_of_uint (N.to_uint (Z.to_N n)).

Definition two_digits (n : Z) : string :=
  if (n <? 10)%Z then "0" ++ decimal n else decimal n.

(** [format(x, '.2%')] of a float: [x * 100] as a float, then the decimal
    with two digits after the point nearest to its exact value (ties to
    the even digit), and the percent sign. *)
Definition format_pct2 (x : float) : string :=
  match Prim2SF (x * 100)%float with
  | S754_nan => "nan%"
  | S754_infinity s => if s then "-inf%" else "inf%"
  | S754_zero s => if s then "-0.00%" else "0.00%"
  | S754_finite s m e =>
      let num := (Zpos m * 100 * 2 ^ Z.max e 0)%Z in
      let den := (2 ^ Z.max (- e) 0)%Z in
      let q := (num / den)%Z in
      let r := (num mod den)%Z in
      let n := match (2 * r ?= den)%Z with
               | Lt => q
               | Gt => (q + 1)%Z
               | Eq => if Z.even q then q else (q + 1)%Z
               end in
      (if s then "-" else "") ++ decimal (n / 100) ++ "."
        ++ two_digits (n mod 100) ++ "%"
  end.

(** [f"{v:.2%}"]: an [int] is formatted as the float it converts to. *)
Definition py_format_pct2 (v : Val) : exc string :=
  match v with
  | VInt z => Ok (format_pct2 (float_of_Z z))
  | VFloat f => Ok (format_pct2 f)
  | _ => Raise TypeError
  end.

(** [risk_data[k]] *)
Definition item (k : string) (d : Dict) : Val := get_or_none k d.

Definition alert (symbol type message severity : string) (value : Val) : Val :=
  VDict [ ("symbol", VStr symbol);
          ("type", VStr type);
          ("message", VStr message);
          ("severity", VStr severity);
          ("value", value) ].

(** The three checks on the record of one symbol, in their order. *)
Definition alerts_for (symbol : string) (risk_data : Dict) : exc (list Val) :=
  high_volatility <- py_gt (get_or "volatility" (VInt 0) risk_data) 0.4 ;;
  a1 <-
    (if high_volatility : bool then
       text <- py_format_pct2 (item "volatility" risk_data) ;;
       Ok [alert symbol "HIGH_VOLATILITY"
             (symbol ++ " showing high volatility: " ++ text) "HIGH"
             (item "volatility" risk_data)]
     else Ok []) ;;
  large_drawdown <- py_lt (get_or "max_drawdown" (VInt 0) risk_data) (-0.25) ;;
  a2 <-
    (if large_drawdown : bool then
       text <- py_format_pct2 (item "max_drawdown" risk_data) ;;
       Ok [alert symbol "LARGE_DRAWDOWN"
             (symbol ++ " has large max drawdown: " ++ text) "HIGH"
             (item "max_drawdown" risk_data)]
     else Ok []) ;;
  extreme_var <- py_lt (get_or "var_95" (VInt 0) risk_data) (-0.05) ;;
  a3 <-
    (if extreme_var : bool then
       text <- py_format_pct2 (item "var_95" risk_data) ;;
       Ok [alert symbol "EXTREME_VAR"
             (symbol ++ " has extreme VaR (95%): " ++ text) "MEDIUM"
             (item "var_95" risk_data)]
     else Ok []) ;;
  Ok (a1 ++ a2 ++ a3)%list.

Fixpoint get_risk_alerts_from (env : Env) (alerts : list Val)
    (symbols : list string) : exc (list Val) :=
  match symbols with
  | [] => Ok alerts
  | symbol :: rest =>
      match analyze_volatility env symbol "1mo" with
      | Some ((_ :: _) as risk_data) =>
          found <- alerts_for symbol risk_data ;;
          get_risk_alerts_from env (alerts ++ found)%list rest
      | _ => get_risk_alerts_from env alerts rest
      end
  end.

Definition get_risk_alerts (env : Env) (symbols : list string) : list Val :=
  try_except (get_risk_alerts_from env [] symbols) [].

(** The reply of the DB server as the agent receives it: the [result]
    member of the response to the posted request, delivered with status
    200. *)
Definition served_result (senv : DbServer.Env) (st : DbRequests.Store)
    (symbol period : string) : option Dict :=
  match result_of_reply 200
          (snd (DbRequests.handle_request senv st (mcp_request symbol period))) with
  | Some (VDict d) => Some d
  | _ => None
  end.

(** The float a number is compared and formatted as. *)
Definition number_of (v : Val) : option float :=
  match v with
  | VInt z => Some (float_of_Z z)
  | VFloat f => Some f
  | _ => None
  end.

(** [a] is the alert of kind [type] on entry [key] of [risk]: its number
    [x] passes the check [exceeds] and is the one formatted and reported. *)
Definition alert_on (symbol : string) (risk : Dict)
    (key type phrase severity : string) (exceeds : float -> bool) (a : Val)
  : Prop :=
  exists v x,
    dget key risk = Some v /\ number_of v = Some x /\ exceeds x = true
    /\ a = alert symbol type (symbol ++ phrase ++ format_pct2 x) severity v.

Definition grounded (symbol : string) (risk : Dict) (a : Val) : Prop :=
  alert_on symbol risk "volatility" "HIGH_VOLATILITY"
    " showing high volatility: " "HIGH" (fun x => fgt x 0.4) a
  \/ alert_on symbol risk "max_drawdown" "LARGE_DRAWDOWN"
       " has large max drawdown: " "HIGH" (fun x => flt x (-0.25)) a
  \/ alert_on symbol risk "var_95" "EXTREME_VAR"
       " has extreme VaR (95%): " "MEDIUM" (fun x => flt x (-0.05)) a.

End RiskAlerts.


(** ** More sample data *)

Module Scenario.
Import Sample.

(** A server holding five bars of X and no analysis. *)
Definition priced_db : DbServer.Database :=
  DbServer.mkDatabase (docs_of (db_env bars5 t0) "X" bars5) [].

Definition priced_server : DbServer.Server :=
  DbServer.mkServer (Some priced_db) [].

(** A server without a database. *)
Definition mock_server : DbServer.Server := DbServer.mkServer None [].

(** Two analyses of X, thirty and ten minutes old at [t0]. *)
Definition older_doc : Dict :=
  DbServer.stored_doc "X" "1mo" (t0 - 1800000)
    (DbServer._calculate_risk_metrics bars5).

Definition newer_doc : Dict :=
  DbServer.stored_doc "X" "1mo" (t0 - 600000)
    (DbServer._calculate_risk_metrics bars11).

Definition twice_db : DbServer.Database :=
  DbServer.mkDatabase [] [older_doc; newer_doc].

Definition twice_server : DbServer.Server :=
  DbServer.mkServer (Some twice_db) [].

(** The agent's world when the DB server answers every symbol with its
    analysis of the eleven bars. *)
Definition served_env : RiskAgent.Env :=
  RiskAgent.mkEnv
    (fun _ _ => Some bars11)
    (fun _ _ => Some (DbServer._calculate_risk_metrics bars11))
    t0.

Definition empty_store : DbRequests.Store := DbRequests.mkStore empty_server [].

Definition mock_store : DbRequests.Store := DbRequests.mkStore mock_server [].

(** The agent's world when its request is answered by the server in
    state [st]; the quote source has nothing for the agent itself. *)
Definition relay_env (senv : DbServer.Env) (st : DbRequests.Store)
  : RiskAgent.Env :=
  RiskAgent.mkEnv (fun _ _ => Some []) (RiskAlerts.served_result senv st) t0.

(** The DB server reports a volatility of 0.45 for X and a record
    without a number for Y. *)
Definition alert_env : RiskAgent.Env :=
  RiskAgent.mkEnv
    (fun _ _ => Some [])
    (fun symbol _ =>
       if String.eqb symbol "X" then Some [("volatility", VFloat 0.45)]
       else if String.eqb symbol "Y" then Some [("volatility", VNone)]
       else None)
    t0.

Definition volatility_alert : Val :=
  RiskAlerts.alert "X" "HIGH_VOLATILITY" "X showing high volatility: 45.00%"
    "HIGH" (VFloat 0.45).

End Scenario.

(** * Properties *)

Import Sample.

(** ** Facts about binary64 arithmetic *)

Section FloatFacts.

Local Abbreviation prec := 53%Z.
Local Abbreviation emax := 1024%Z.

Lemma shr_1_nonneg (mrs : shr_record) :
  (0 <= shr_m mrs)%Z -> (0 <= shr_m (shr_1 mrs))%Z.
Proof.
  destruct mrs as [m r s]; cbn [shr_m].
  destruct m as [|p|p]; cbn; try lia; destruct p; cbn; lia.
Qed.

Lemma iter_shr_1_nonneg (p : positive) : forall mrs,
  (0 <= shr_m mrs)%Z -> (0 <= shr_m (SpecFloat.iter_pos shr_1 p mrs))%Z.
Proof.
  induction p as [p IH|p IH|]; intros mrs H; cbn [SpecFloat.iter_pos].
  - apply IH, IH, shr_1_nonneg, H.
  - apply IH, IH, H.
  - apply shr_1_nonneg, H.
Qed.

Lemma shr_fexp_nonneg (m e : Z) (l : location) :
  (0 <= m)%Z -> (0 <= shr_m (fst (shr_fexp prec emax m e l)))%Z.
Proof.
  intros H. unfold shr_fexp, shr.
  assert (H0 : (0 <= shr_m (shr_record_of_loc m l))%Z).
  { destruct l as [|[| |]]; cbn; exact H. }
  destruct (fexp prec emax (Zdigits2 m + e) - e)%Z; cbn [fst]; trivial.
  apply iter_shr_1_nonneg, H0.
Qed.

Lemma round_nearest_even_nonneg (m : Z) (l : location) :
  (0 <= m)%Z -> (0 <= round_nearest_even m l)%Z.
Proof.
  intros H. destruct l as [|[| |]]; cbn; try lia.
  destruct (Z.even m); lia.
Qed.

Lemma binary_round_aux_not_nan (s : bool) (m e : Z) (l : location) :
  (0 <= m)%Z -> binary_round_aux prec emax s m e l <> S754_nan.
Proof.
  intros H. unfold binary_round_aux.
  pose proof (shr_fexp_nonneg m e l H) as H1.
  destruct (shr_fexp prec emax m e l) as [mrs' e'] eqn:E1. cbn [fst] in H1.
  pose proof (shr_fexp_nonneg _ e' loc_Exact
                (round_nearest_even_nonneg _ (loc_of_shr_record mrs') H1)) as H2.
  destruct (shr_fexp prec emax _ e' loc_Exact) as [mrs'' e''] eqn:E2.
  cbn [fst] in H2.
  destruct (shr_m mrs'') as [|p|p]; try discriminate; try lia.
  destruct (e'' <=? emax - prec)%Z; discriminate.
Qed.

Lemma binary_normalize_not_nan (m e : Z) (sz : bool) :
  binary_normalize prec emax m e sz <> S754_nan.
Proof.
  unfold binary_normalize, binary_round.
  destruct m as [|p|p]; try discriminate.
  - destruct (shl_align _ _ _) as [mz ez]. apply binary_round_aux_not_nan. lia.
  - destruct (shl_align _ _ _) as [mz ez]. apply binary_round_aux_not_nan. lia.
Qed.

Lemma SFdiv_finite_not_nan (sx sy : bool) (mx my : positive) (ex ey : Z) :
  SFdiv prec emax (S754_finite sx mx ex) (S754_finite sy my ey) <> S754_nan.
Proof.
  cbn [SFdiv]. unfold SFdiv_core_binary.
  set (s := (ex - ey - _)%Z).
  set (m' := match s with Zpos _ => Z.shiftl (Zpos mx) s | Z0 => Zpos mx | Zneg _ => 0%Z end).
  assert (Hm : (0 <= m')%Z).
  { unfold m'. destruct s; try lia. apply Z.shiftl_nonneg. lia. }
  pose proof (Z.div_pos m' (Zpos my) Hm ltac:(lia)) as Hq.
  unfold Z.div in Hq.
  destruct (Z.div_eucl m' (Zpos my)) as [q r]. cbn [fst] in Hq.
  apply binary_round_aux_not_nan, Hq.
Qed.

Lemma SFsub_finite_not_nan (x : spec_float) (sy : bool) (my : positive) (ey : Z) :
  x <> S754_nan -> SFsub prec emax x (S754_finite sy my ey) <> S754_nan.
Proof.
  intros Hx. destruct x as [s|s| |s m e]; cbn [SFsub]; try discriminate.
  - congruence.
  - apply binary_normalize_not_nan.
Qed.

Lemma SFeqb_refl (x : spec_float) : x <> S754_nan -> SFeqb x x = true.
Proof.
  intros Hx. unfold SFeqb.
  destruct x as [s|s| |s m e]; cbn [SFcompare]; try reflexivity.
  - destruct s; reflexivity.
  - congruence.
  - destruct s; rewrite Z.compare_refl, Pos.compare_cont_refl; reflexivity.
Qed.

Lemma is_nan_false (x : float) : Prim2SF x <> S754_nan -> is_nan x = false.
Proof.
  intros H. unfold is_nan. rewrite FloatAxioms.eqb_spec, SFeqb_refl by exact H. reflexivity.
Qed.

Lemma pos_finite_SF (x : float) :
  pos_finite x = true -> exists m e, Prim2SF x = S754_finite false m e.
Proof.
  unfold pos_finite, flt. rewrite andb_true_iff, !FloatAxioms.ltb_spec.
  change (Prim2SF 0) with (S754_zero false).
  change (Prim2SF infinity) with (S754_infinity false).
  intros [H0 H1]. unfold SFltb in *.
  destruct (Prim2SF x) as [s|s| |s m e]; cbn in *; try discriminate.
  - destruct s; discriminate.
  - destruct s; try discriminate. eauto.
Qed.

Lemma pos_finite_not_nan (x : float) : pos_finite x = true -> is_nan x = false.
Proof.
  intros H. destruct (pos_finite_SF x H) as (m & e & E).
  apply is_nan_false. rewrite E. discriminate.
Qed.

(** The percentage change between two positive finite prices is a number
    (it may be infinite after an overflow, it is never NaN). *)
Lemma pct_not_nan (x prev : float) :
  pos_finite x = true -> pos_finite prev = true ->
  is_nan (x / prev - 1)%float = false.
Proof.
  intros Hx Hp.
  destruct (pos_finite_SF x Hx) as (mx & ex & Ex).
  destruct (pos_finite_SF prev Hp) as (mp & ep & Ep).
  apply is_nan_false. rewrite FloatAxioms.sub_spec, FloatAxioms.div_spec, Ex, Ep.
  change (Prim2SF 1) with (S754_finite false 4503599627370496 (-52)).
  apply SFsub_finite_not_nan, SFdiv_finite_not_nan.
Qed.

End FloatFacts.

(** ** The returns series *)

Lemma prim_nan (z : float) : Prim2SF z = S754_nan -> is_nan z = true.
Proof.
  intros H. unfold is_nan. rewrite FloatAxioms.eqb_spec, H. reflexivity.
Qed.

Lemma pct_of_nan_prev (x : float) : is_nan (x / nan - 1)%float = true.
Proof.
  apply prim_nan. rewrite FloatAxioms.sub_spec, FloatAxioms.div_spec.
  change (Prim2SF nan) with S754_nan.
  destruct (Prim2SF x); reflexivity.
Qed.

Lemma length_pct_from (s : Series) : forall prev,
  List.length (pct_from prev s) = List.length s.
Proof.
  induction s as [|[d x] t IH]; intros prev; cbn [pct_from List.length]; auto.
Qed.

Lemma length_ffill_from (s : Series) : forall last,
  List.length (ffill_from last s) = List.length s.
Proof.
  induction s as [|[d x] t IH]; intros last; cbn [ffill_from]; auto.
  destruct (is_nan x); cbn [List.length]; auto.
Qed.

Lemma ffill_from_valid (s : Series) : forall last,
  forallb (fun p => negb (is_nan (snd p))) s = true -> ffill_from last s = s.
Proof.
  induction s as [|[d x] t IH]; intros last H; cbn [ffill_from]; auto.
  cbn [forallb snd] in H. apply andb_true_iff in H as [Hx Ht].
  apply negb_true_iff in Hx. rewrite Hx, IH by exact Ht. reflexivity.
Qed.

Lemma dropna_pct_from_valid (s : Series) : forall prev,
  pos_finite prev = true ->
  forallb (fun p => pos_finite (snd p)) s = true ->
  dropna (pct_from prev s) = pct_from prev s.
Proof.
  induction s as [|[d x] t IH]; intros prev Hp H; cbn [pct_from]; auto.
  cbn [forallb snd] in H. apply andb_true_iff in H as [Hx Ht].
  unfold dropna in *. cbn [filter snd].
  rewrite (pct_not_nan x prev Hx Hp). cbn [negb].
  f_equal. apply IH; assumption.
Qed.

Lemma returns_of_cons (b : Bar) (df : DataFrame) :
  List.length (returns_of (b :: df)) <= List.length df.
Proof.
  unfold returns_of, pct_change, ffill.
  destruct (ffill_from None (close_series (b :: df))) as [|[d x] t] eqn:E.
  - apply (f_equal (@List.length _)) in E.
    rewrite length_ffill_from in E. discriminate.
  - apply (f_equal (@List.length _)) in E.
    rewrite length_ffill_from in E. unfold close_series in E.
    rewrite length_map in E. cbn [List.length] in E.
    cbn [pct_from]. unfold dropna. cbn [filter snd].
    rewrite pct_of_nan_prev. cbn [negb].
    etransitivity; [apply filter_length_le|].
    rewrite length_pct_from. lia.
Qed.

Lemma returns_of_valid (b : Bar) (df : DataFrame) :
  forallb (fun r => pos_finite (Close r)) (b :: df) = true ->
  List.length (returns_of (b :: df)) = List.length df.
Proof.
  intros H. unfold returns_of, pct_change, ffill.
  assert (Hs : forallb (fun p => pos_finite (snd p)) (close_series (b :: df)) = true).
  { unfold close_series. rewrite forallb_forall in *. intros p Hp.
    apply in_map_iff in Hp as (r & <- & Hr). apply H, Hr. }
  rewrite ffill_from_valid.
  2:{ rewrite forallb_forall in *. intros p Hp.
      rewrite (pos_finite_not_nan _ (Hs p Hp)). reflexivity. }
  cbn [close_series map pct_from]. unfold dropna. cbn [filter snd].
  rewrite pct_of_nan_prev. cbn [negb].
  cbn [close_series map forallb snd] in Hs. apply andb_true_iff in Hs as [Hb Ht].
  fold (dropna (pct_from (Close b) (map (fun b0 => (Date b0, Close b0)) df))).
  rewrite dropna_pct_from_valid by assumption.
  rewrite length_pct_from, length_map. reflexivity.
Qed.

Lemma zero_prior_close (c : float) :
  pos_finite c = true -> (c / 0 - 1)%float = infinity.
Proof.
  intros H. destruct (pos_finite_SF c H) as (m & e & E).
  rewrite <- (FloatAxioms.SF2Prim_Prim2SF (c / 0 - 1)).
  rewrite FloatAxioms.sub_spec, FloatAxioms.div_spec, E.
  reflexivity.
Qed.

(** C7, as amended: the returns series has at most [n - 1] entries and
    none for fewer than two bars; it has exactly [n - 1] when every close
    is a positive finite number; a zero close followed by a positive one
    leaves an infinite return in the series. *)
Theorem returns_length (df : DataFrame) :
  List.length (returns_of df) <= List.length df - 1
  /\ (List.length df < 2 -> returns_of df = [])
  /\ (forallb (fun b => pos_finite (Close b)) df = true ->
      List.length (returns_of df) = List.length df - 1)
  /\ (forall b0 b1,
        df = [b0; b1] ->
        Close b0 = 0%float ->
        pos_finite (Close b1) = true ->
        returns_of df = [(Date b1, infinity)]).
Proof.
  assert (H1 : List.length (returns_of df) <= List.length df - 1).
  { destruct df as [|b t]; [cbn; lia|].
    pose proof (returns_of_cons b t). cbn [List.length]. lia. }
  split; [exact H1|]. split; [|split].
  - intros H. destruct (returns_of df); [reflexivity|]. cbn [List.length] in H1. lia.
  - intros H. destruct df as [|b t]; [reflexivity|].
    rewrite returns_of_valid by exact H. cbn [List.length]. lia.
  - intros b0 b1 -> H0 Hc.
    unfold returns_of, pct_change, ffill.
    cbn [close_series map ffill_from]. rewrite H0.
    change (is_nan 0) with false. cbn iota.
    rewrite (pos_finite_not_nan _ Hc). cbn [pct_from].
    rewrite (zero_prior_close _ Hc).
    reflexivity.
Qed.

Lemma returns_length_witness :
  List.length (returns_of bars11) = 10
  /\ returns_of bars1 = []
  /\ returns_of bars_zero_five = [(20001 * day_ms, infinity)%Z].
Proof.
  split; [|split].
  - exact (proj1 (proj2 (proj2 (returns_length bars11))) eq_refl).
  - apply (proj1 (proj2 (returns_length bars1))). cbn. lia.
  - exact (proj2 (proj2 (proj2 (returns_length bars_zero_five)))
             (mkBar (20000 * day_ms) 0 0 0 0 1000)
             (mkBar (20001 * day_ms) 5 5 5 5 1000) eq_refl eq_refl eq_refl).
Defined.

(** C7 as stated fails: two zero closes give no return at all, where
    [max(n - 1, 0)] is 1; a zero close followed by 5 gives the return
    [infinity], which is kept. *)
Lemma returns_length_counterexample :
  List.length (returns_of bars_zero_zero)
  <> Nat.max (List.length bars_zero_zero - 1) 0
  /\ values (returns_of bars_zero_five) = [infinity].
Proof. split; [vm_compute; discriminate | vm_compute; reflexivity]. Qed.

(** ** The risk level *)

Lemma classify_risk_is_scoring (v d r : float) :
  DbServer._classify_risk v d r = Spec.risk_level v d r.
Proof.
  unfold DbServer._classify_risk, Spec.risk_level, Spec.risk_score,
    Spec.vol_score, Spec.drawdown_score, Spec.var_score.
  destruct (fgt v 0.40), (fgt v 0.25), (fgt v 0.15),
    (flt d (-0.30)), (flt d (-0.20)), (flt d (-0.10)),
    (flt r (-0.05)), (flt r (-0.03)), (flt r (-0.02)); reflexivity.
Qed.

Lemma risk_score_le_9 (v d r : float) : Spec.risk_score v d r <= 9.
Proof.
  unfold Spec.risk_score, Spec.vol_score, Spec.drawdown_score, Spec.var_score.
  repeat match goal with |- context [if ?b then _ else _] => destruct b end; lia.
Qed.

Lemma db_metrics_cases (df : DataFrame) :
  DbServer._calculate_risk_metrics df = DbServer.insufficient
  \/ exists v d r,
       dget "volatility" (DbServer._calculate_risk_metrics df) = Some (VFloat v)
       /\ dget "max_drawdown" (DbServer._calculate_risk_metrics df) = Some (VFloat d)
       /\ dget "var_95" (DbServer._calculate_risk_metrics df) = Some (VFloat r)
       /\ dget "risk_level" (DbServer._calculate_risk_metrics df)
          = Some (VStr (DbServer._classify_risk v d r)).
Proof.
  unfold DbServer._calculate_risk_metrics.
  destruct (List.length (returns_of df) <? 2)%nat; [left; reflexivity|right].
  do 3 eexists. repeat split; reflexivity.
Qed.

Lemma agent_classify_cases (v d r : float) :
  (RiskAgent._classify_risk_level v d r = "HIGH"
   /\ 2 <= RiskAgent.high_risk_count v d r)
  \/ (RiskAgent._classify_risk_level v d r = "MEDIUM"
      /\ (RiskAgent.high_risk_count v d r = 1
          \/ (RiskAgent.high_risk_count v d r = 0
              /\ 2 <= RiskAgent.medium_risk_count v d r)))
  \/ (RiskAgent._classify_risk_level v d r = "LOW"
      /\ RiskAgent.high_risk_count v d r = 0
      /\ RiskAgent.medium_risk_count v d r < 2).
Proof.
  unfold RiskAgent._classify_risk_level.
  destruct (Nat.leb_spec 2 (RiskAgent.high_risk_count v d r)) as [H|H];
    [left; split; [reflexivity|lia]|right].
  destruct (Nat.leb_spec 1 (RiskAgent.high_risk_count v d r)) as [H1|H1].
  - left. split; [reflexivity|lia].
  - destruct (Nat.leb_spec 2 (RiskAgent.medium_risk_count v d r)) as [H2|H2].
    + left. split; [reflexivity|]. right. lia.
    + right. split; [reflexivity|lia].
Qed.

Lemma agent_metrics_cases (env : RiskAgent.Env) (returns prices : Series) :
  RiskAgent._compute_risk_metrics env returns prices = []
  \/ dget "risk_level" (RiskAgent._compute_risk_metrics env returns prices)
     = Some (VStr (RiskAgent._classify_risk_level
                     (series_std (values returns) * PrimFloat.sqrt 252)%float
                     (max_drawdown_of (values returns))
                     (np_percentile (values returns) 5))).
Proof.
  unfold RiskAgent._compute_risk_metrics, RiskAgent._compute_risk_metrics_body.
  cbv zeta. unfold py_div.
  repeat match goal with
  | |- context [if feq ?b 0 then Raise _ else _] =>
      destruct (feq b 0); cbn [bind try_except]; [left; reflexivity|]
  end.
  match goal with
  | |- context [if ?c then VFloat _ else VInt 0] => destruct c
  end; cbn [py_round4 bind try_except]; right; reflexivity.
Qed.

(** C1, as amended: on the DB-server path the level is the 0..9 scoring
    of the record's volatility, drawdown and VaR-95; on the direct path it
    is HIGH, MEDIUM or LOW by the count of high and medium indicators. *)
Theorem risk_level_by_path :
  (forall v d r,
      DbServer._classify_risk v d r = Spec.risk_level v d r
      /\ Spec.risk_score v d r <= 9)
  /\ (forall df,
        DbServer._calculate_risk_metrics df = DbServer.insufficient
        \/ exists v d r,
             dget "volatility" (DbServer._calculate_risk_metrics df) = Some (VFloat v)
             /\ dget "max_drawdown" (DbServer._calculate_risk_metrics df) = Some (VFloat d)
             /\ dget "var_95" (DbServer._calculate_risk_metrics df) = Some (VFloat r)
             /\ dget "risk_level" (DbServer._calculate_risk_metrics df)
                = Some (VStr (Spec.risk_level v d r)))
  /\ (forall v d r,
        (RiskAgent._classify_risk_level v d r = "HIGH"
         /\ 2 <= RiskAgent.high_risk_count v d r)
        \/ (RiskAgent._classify_risk_level v d r = "MEDIUM"
            /\ (RiskAgent.high_risk_count v d r = 1
                \/ (RiskAgent.high_risk_count v d r = 0
                    /\ 2 <= RiskAgent.medium_risk_count v d r)))
        \/ (RiskAgent._classify_risk_level v d r = "LOW"
            /\ RiskAgent.high_risk_count v d r = 0
            /\ RiskAgent.medium_risk_count v d r < 2))
  /\ (forall env returns prices,
        RiskAgent._compute_risk_metrics env returns prices = []
        \/ dget "risk_level" (RiskAgent._compute_risk_metrics env returns prices)
           = Some (VStr (RiskAgent._classify_risk_level
                           (series_std (values returns) * PrimFloat.sqrt 252)%float
                           (max_drawdown_of (values returns))
                           (np_percentile (values returns) 5)))).
Proof.
  split; [intros v d r; split;
          [apply classify_risk_is_scoring|apply risk_score_le_9]|].
  split; [|split].
  - intros df. destruct (db_metrics_cases df) as [H|(v & d & r & Hv & Hd & Hr & Hl)].
    + left. exact H.
    + right. exists v, d, r. rewrite <- classify_risk_is_scoring. auto.
  - exact agent_classify_cases.
  - exact agent_metrics_cases.
Qed.

(** C1 as stated fails on the direct path: the rising series is rated
    MEDIUM there, and "Low" by the scoring. *)
Lemma risk_level_counterexample :
  option_map (dget "risk_level")
    (RiskAgent._calculate_risk_metrics (agent_env bars_rising) "X" "1mo")
  = Some (Some (VStr "MEDIUM"))
  /\ Spec.risk_level
       (series_std (values (returns_of bars_rising)) * PrimFloat.sqrt 252)%float
       (max_drawdown_of (values (returns_of bars_rising)))
       (np_percentile (values (returns_of bars_rising)) 5)
     = "Low".
Proof. split; vm_compute; reflexivity. Qed.

(** ** Too few observations *)

Lemma db_metrics_insufficient (df : DataFrame) :
  List.length (returns_of df) < 2 ->
  DbServer._calculate_risk_metrics df = DbServer.insufficient.
Proof.
  intros Hn. unfold DbServer._calculate_risk_metrics.
  apply Nat.ltb_lt in Hn. rewrite Hn. reflexivity.
Qed.

(** C2, as amended: the direct path gives no result for fewer than 10
    returns; the DB-server path gives its error record for fewer than 2
    returns and computes the metrics from 2 returns on. *)
Theorem insufficient_data_by_path :
  (forall env symbol period hist,
      RiskAgent._get_historical_data env symbol period = Some hist ->
      List.length (returns_of hist) < 10 ->
      RiskAgent._calculate_risk_metrics env symbol period = None)
  /\ (forall df,
        List.length (returns_of df) < 2 ->
        DbServer._calculate_risk_metrics df = DbServer.insufficient)
  /\ (forall df,
        2 <= List.length (returns_of df) ->
        dget "error" (DbServer._calculate_risk_metrics df) = None
        /\ dget "data_points" (DbServer._calculate_risk_metrics df)
           = Some (VInt (Z.of_nat (List.length (returns_of df))))
        /\ exists level,
             dget "risk_level" (DbServer._calculate_risk_metrics df)
             = Some (VStr level)).
Proof.
  split; [|split].
  - intros env symbol period hist Hh Hn.
    unfold RiskAgent._calculate_risk_metrics. rewrite Hh.
    destruct (nonempty hist); cbn [negb]; [|reflexivity].
    apply Nat.ltb_lt in Hn. rewrite Hn. reflexivity.
  - exact db_metrics_insufficient.
  - intros df Hn. unfold DbServer._calculate_risk_metrics.
    apply Nat.ltb_ge in Hn. rewrite Hn.
    repeat split; try reflexivity. eexists. reflexivity.
Qed.

Lemma insufficient_data_by_path_witness :
  RiskAgent._calculate_risk_metrics (agent_env bars9) "X" "1mo" = None
  /\ DbServer._calculate_risk_metrics bars1 = DbServer.insufficient
  /\ dget "error" (DbServer._calculate_risk_metrics bars11) = None.
Proof.
  split; [|split].
  - apply (proj1 insufficient_data_by_path (agent_env bars9) "X" "1mo"
             (map RiskAgent.row_of_hist bars9)).
    + reflexivity.
    + vm_compute. lia.
  - apply (proj1 (proj2 insufficient_data_by_path)). vm_compute. lia.
  - apply (proj2 (proj2 insufficient_data_by_path)). vm_compute. lia.
Defined.

(** C2 as stated fails on the DB-server path: five bars give four
    returns, and the server without a database answers with computed
    metrics. *)
Lemma insufficient_data_counterexample :
  List.length (returns_of bars5) = 4
  /\ (exists m,
        snd (DbServer.analyze_risk (db_env bars5 t0) Scenario.mock_server
               "X" "1mo")
        = Some m
        /\ dget "error" m = None
        /\ dget "data_points" m = Some (VInt 4)
        /\ dget "risk_level" m = Some (VStr "Medium")).
Proof.
  split; [vm_compute; reflexivity|].
  eexists. split; [vm_compute; reflexivity|].
  repeat split; reflexivity.
Qed.

(** ** Dictionaries *)

Lemma dget_dset {A : Type} (k k' : string) (v : A) (d : list (string * A)) :
  dget k (dset k' v d) = if String.eqb k k' then Some v else dget k d.
Proof.
  induction d as [|[k0 v0] t IH]; cbn [dset dget].
  - destruct (String.eqb k k'); reflexivity.
  - destruct (String.eqb_spec k' k0) as [->|Hne]; cbn [dget].
    + destruct (String.eqb k k0); reflexivity.
    + destruct (String.eqb_spec k k0) as [->|Hk].
      * destruct (String.eqb_spec k0 k'); [congruence|reflexivity].
      * exact IH.
Qed.

Lemma dget_dupdate_absent {A : Type} (k : string) (e : list (string * A)) :
  forall d, dget k e = None -> dget k (dupdate d e) = dget k d.
Proof.
  unfold dupdate.
  induction e as [|[k0 v0] t IH]; intros d H; cbn [fold_left fst snd]; auto.
  cbn [dget] in H. destruct (String.eqb k k0) eqn:E; [discriminate|].
  rewrite IH by exact H. rewrite dget_dset, E. reflexivity.
Qed.

Lemma dget_dupdate_nodup {A : Type} (k : string) (e : list (string * A)) :
  forall d, NoDup (map fst e) ->
  dget k (dupdate d e) = match dget k e with Some v => Some v | None => dget k d end.
Proof.
  unfold dupdate.
  induction e as [|[k0 v0] t IH]; intros d H; cbn [fold_left fst snd dget]; auto.
  cbn [map fst] in H. inversion H as [|? ? Hnotin Hnd]; subst.
  rewrite IH by exact Hnd.
  destruct (String.eqb_spec k k0) as [->|Hk].
  - assert (Hn : dget k0 t = None).
    { clear -Hnotin. induction t as [|[k1 v1] t IH]; cbn [dget]; auto.
      cbn [map fst] in Hnotin.
      destruct (String.eqb_spec k0 k1) as [->|]; [exfalso; apply Hnotin; left; reflexivity|].
      apply IH. intros Hin. apply Hnotin. right. exact Hin. }
    rewrite Hn, dget_dset, String.eqb_refl. reflexivity.
  - destruct (dget k t); [reflexivity|].
    rewrite dget_dset. destruct (String.eqb_spec k k0); [congruence|reflexivity].
Qed.

Lemma nonempty_dset {A : Type} (k : string) (v : A) (d : list (string * A)) :
  nonempty (dset k v d) = true.
Proof. destruct d as [|[k0 v0] t]; cbn; [reflexivity|]. destruct (String.eqb k k0); reflexivity. Qed.

Lemma nonempty_dupdate {A : Type} (e : list (string * A)) :
  forall d, nonempty d = true -> nonempty (dupdate d e) = true.
Proof.
  unfold dupdate. induction e as [|[k0 v0] t IH]; intros d H; cbn [fold_left]; auto.
  apply IH, nonempty_dset.
Qed.

(** ** The DB server *)

Section DbServerProperties.

Import DbServer.

Lemma filter_nil {A : Type} (f : A -> bool) (l : list A) :
  (forall x, In x l -> f x = false) -> filter f l = [].
Proof.
  induction l as [|a t IH]; intros H; cbn [filter]; [reflexivity|].
  rewrite (H a (or_introl eq_refl)). apply IH. intros x Hx. apply H. right. exact Hx.
Qed.

(** ** The truth test of the database handle *)

Lemma recent_analysis_connected (env : Env) (srv : Server) (d : Database)
    (symbol period : string) :
  db srv = Some d ->
  _get_recent_analysis env srv symbol period
  = Raise (NotImplementedError database_bool_text).
Proof. intros Hd. unfold _get_recent_analysis. rewrite Hd. reflexivity. Qed.

Lemma recent_analysis_no_db (env : Env) (srv : Server) (symbol period : string) :
  db srv = None -> _get_recent_analysis env srv symbol period = Ok None.
Proof. intros Hd. unfold _get_recent_analysis. rewrite Hd. reflexivity. Qed.

Lemma data_from_db_connected (env : Env) (srv : Server) (d : Database)
    (symbol period : string) :
  db srv = Some d ->
  _get_data_from_db env srv symbol period
  = Raise (NotImplementedError database_bool_text).
Proof. intros Hd. unfold _get_data_from_db. rewrite Hd. reflexivity. Qed.

Lemma data_from_db_no_db (env : Env) (srv : Server) (symbol period : string) :
  db srv = None -> _get_data_from_db env srv symbol period = Ok None.
Proof. intros Hd. unfold _get_data_from_db. rewrite Hd. reflexivity. Qed.

Lemma store_bulk_no_db (env : Env) (srv : Server) (symbol : string)
    (df : DataFrame) :
  db srv = None -> _store_price_data_bulk env srv symbol df = Ok srv.
Proof. intros Hd. unfold _store_price_data_bulk. rewrite Hd. reflexivity. Qed.

Lemma store_risk_no_db (env : Env) (srv : Server) (symbol period : string)
    (metrics : Dict) :
  db srv = None -> _store_risk_analysis env srv symbol period metrics = Ok srv.
Proof. intros Hd. unfold _store_risk_analysis. rewrite Hd. reflexivity. Qed.

Lemma fetch_unfold (env : Env) (srv : Server) (symbol period : string) :
  _fetch_data_from_api env srv symbol period
  = (logged srv (ticker_of symbol) period,
     match yf_history env (ticker_of symbol) period with
     | Some df => if nonempty df then Some df else None
     | None => None
     end).
Proof.
  unfold _fetch_data_from_api, logged, ticker_of. cbv zeta.
  destruct (yf_history env _ period) as [df|]; [|reflexivity].
  destruct (nonempty df); reflexivity.
Qed.

Lemma historical_data_connected (env : Env) (srv : Server) (d : Database)
    (symbol period : string) :
  db srv = Some d -> _get_historical_data env srv symbol period = (srv, None).
Proof.
  intros Hd. unfold _get_historical_data, _get_historical_data_body.
  rewrite (data_from_db_connected env srv d symbol period Hd). reflexivity.
Qed.

Lemma historical_data_no_db (env : Env) (srv : Server) (symbol period : string) :
  db srv = None ->
  _get_historical_data env srv symbol period
  = (logged srv (ticker_of symbol) period,
     match yf_history env (ticker_of symbol) period with
     | Some ((_ :: _) as rows) => Some rows
     | _ => None
     end).
Proof.
  intros Hd. unfold _get_historical_data, _get_historical_data_body.
  rewrite (data_from_db_no_db env srv symbol period Hd), fetch_unfold.
  destruct (yf_history env (ticker_of symbol) period) as [[|b t]|];
    cbn [nonempty]; try reflexivity.
  rewrite store_bulk_no_db by exact Hd. reflexivity.
Qed.

Lemma analyze_risk_connected (env : Env) (srv : Server) (d : Database)
    (symbol period : string) :
  db srv = Some d -> analyze_risk env srv symbol period = (srv, None).
Proof.
  intros Hd. unfold analyze_risk, analyze_risk_body.
  rewrite (recent_analysis_connected env srv d symbol period Hd). reflexivity.
Qed.

Lemma analyze_risk_no_db_state (env : Env) (srv : Server) (symbol period : string) :
  db srv = None ->
  fst (analyze_risk env srv symbol period) = logged srv (ticker_of symbol) period.
Proof.
  intros Hd. unfold analyze_risk, analyze_risk_body.
  rewrite (recent_analysis_no_db env srv symbol period Hd),
    (historical_data_no_db env srv symbol period Hd).
  destruct (yf_history env (ticker_of symbol) period) as [[|b t]|]; try reflexivity.
  rewrite store_risk_no_db by exact Hd. reflexivity.
Qed.

Lemma analyze_risk_no_db_result (env : Env) (srv : Server) (symbol period : string) :
  db srv = None ->
  snd (analyze_risk env srv symbol period)
  = match yf_history env (ticker_of symbol) period with
    | Some ((_ :: _) as rows) => Some (_calculate_risk_metrics rows)
    | _ => None
    end.
Proof.
  intros Hd. unfold analyze_risk, analyze_risk_body.
  rewrite (recent_analysis_no_db env srv symbol period Hd),
    (historical_data_no_db env srv symbol period Hd).
  destruct (yf_history env (ticker_of symbol) period) as [[|b t]|]; try reflexivity.
  rewrite store_risk_no_db by exact Hd. reflexivity.
Qed.

(** ** C3: the cache of analyses *)

(** C3: the code does not do what the claim says.  On a connected server
    the truth test of the handle raises in [_get_recent_analysis], the
    handler of [analyze_risk] answers [None] and the server is left as it
    was: no stored analysis is served, however fresh, and none is ever
    stored.  Without a database nothing is stored either, and a second
    call asks the quote source again. *)
Theorem cached_analysis_never_served (env : Env) (srv : Server)
    (symbol period : string) :
  (forall d, db srv = Some d ->
             analyze_risk env srv symbol period = (srv, None))
  /\ (db srv = None ->
      forall env1,
        db (fst (analyze_risk env srv symbol period)) = None
        /\ upstream_calls
             (fst (analyze_risk env1 (fst (analyze_risk env srv symbol period))
                     symbol period))
           = (ticker_of symbol, period) :: (ticker_of symbol, period)
               :: upstream_calls srv).
Proof.
  split.
  - intros d Hd. exact (analyze_risk_connected env srv d symbol period Hd).
  - intros Hd env1.
    rewrite (analyze_risk_no_db_state env srv symbol period Hd).
    split; [exact Hd|].
    rewrite analyze_risk_no_db_state by exact Hd. reflexivity.
Qed.

Lemma cached_analysis_never_served_witness :
  In Scenario.newer_doc (volatility_metrics Scenario.twice_db)
  /\ matches_key "X" "1mo" Scenario.newer_doc = true
  /\ recent_enough (utcnow (db_env bars11 t0) - hour_ms) Scenario.newer_doc = true
  /\ analyze_risk (db_env bars11 t0) Scenario.twice_server "X" "1mo"
     = (Scenario.twice_server, None)
  /\ List.length
       (upstream_calls
          (fst (analyze_risk (db_env bars11 (t0 + 1800000))
                  (fst (analyze_risk (db_env bars11 t0) Scenario.mock_server
                          "X" "1mo")) "X" "1mo"))) = 2.
Proof.
  split; [right; left; reflexivity|].
  split; [vm_compute; reflexivity|].
  split; [vm_compute; reflexivity|].
  split.
  - exact (proj1 (cached_analysis_never_served (db_env bars11 t0)
                    Scenario.twice_server "X" "1mo") Scenario.twice_db eq_refl).
  - rewrite (proj2 (proj2 (cached_analysis_never_served (db_env bars11 t0)
                             Scenario.mock_server "X" "1mo") eq_refl
                      (db_env bars11 (t0 + 1800000)))).
    reflexivity.
Defined.

(** ** C4: no stale analysis in place of a failure *)

(** C4: [analyze_risk] never answers with a document of the store, stale
    or not.  On a connected server the caller receives [None]; without a
    database there is no stored analysis, a quote source without bars
    gives [None] and a series with fewer than two returns gives the error
    record. *)
Theorem stale_never_served (env : Env) (srv : Server) (symbol period : string) :
  (forall d, db srv = Some d ->
     snd (analyze_risk env srv symbol period) = None
     /\ forall doc, In doc (volatility_metrics d) ->
                    snd (analyze_risk env srv symbol period) <> Some doc)
  /\ (db srv = None ->
      (yf_history env (ticker_of symbol) period = None
       \/ yf_history env (ticker_of symbol) period = Some [] ->
       snd (analyze_risk env srv symbol period) = None)
      /\ forall rows,
           yf_history env (ticker_of symbol) period = Some rows ->
           rows <> [] ->
           List.length (returns_of rows) < 2 ->
           snd (analyze_risk env srv symbol period) = Some insufficient).
Proof.
  split.
  - intros d Hd. rewrite (analyze_risk_connected env srv d symbol period Hd).
    split; [reflexivity|]. intros doc _. discriminate.
  - intros Hd. rewrite (analyze_risk_no_db_result env srv symbol period Hd).
    split.
    + intros [-> | ->]; reflexivity.
    + intros rows -> Hne Hlen. destruct rows as [|b t]; [contradiction|].
      rewrite (db_metrics_insufficient (b :: t) Hlen). reflexivity.
Qed.

Lemma stale_never_served_witness :
  In stale_doc (volatility_metrics (mkDatabase [] [stale_doc]))
  /\ matches_key "X" "1mo" stale_doc = true
  /\ recent_enough (utcnow (db_env bars1 t0) - hour_ms) stale_doc = false
  /\ snd (analyze_risk (db_env bars1 t0) stale_server "X" "1mo") = None
  /\ snd (analyze_risk (db_env bars1 t0) stale_server "X" "1mo") <> Some stale_doc
  /\ snd (analyze_risk (db_env bars1 t0) Scenario.mock_server "X" "1mo")
     = Some insufficient.
Proof.
  split; [left; reflexivity|].
  split; [vm_compute; reflexivity|].
  split; [vm_compute; reflexivity|].
  split; [|split].
  - exact (proj1 (proj1 (stale_never_served (db_env bars1 t0) stale_server
                           "X" "1mo") (mkDatabase [] [stale_doc]) eq_refl)).
  - exact (proj2 (proj1 (stale_never_served (db_env bars1 t0) stale_server
                           "X" "1mo") (mkDatabase [] [stale_doc]) eq_refl)
             stale_doc (or_introl eq_refl)).
  - apply (proj2 (proj2 (stale_never_served (db_env bars1 t0)
                           Scenario.mock_server "X" "1mo") eq_refl) bars1).
    + reflexivity.
    + discriminate.
    + vm_compute. lia.
Defined.

(** ** C8: the resolution of a price series *)

(** C8: the code does not do what the claim says.  On a connected server
    the truth test of the handle raises in [_get_data_from_db] and the
    handler of [_get_historical_data] answers [None]: the stored series is
    not returned, however new its last bar, and no upstream request is
    sent.  Without a database there is no stored series: one request is
    sent and a non-empty answer is returned, not stored. *)
Theorem stored_series_never_returned (env : Env) (srv : Server)
    (symbol period : string) :
  (forall d, db srv = Some d ->
             _get_historical_data env srv symbol period = (srv, None))
  /\ (db srv = None ->
      _get_historical_data env srv symbol period
      = (logged srv (ticker_of symbol) period,
         match yf_history env (ticker_of symbol) period with
         | Some ((_ :: _) as rows) => Some rows
         | _ => None
         end)).
Proof.
  split.
  - intros d. apply historical_data_connected.
  - apply historical_data_no_db.
Qed.

Lemma stored_series_never_returned_witness :
  (date_of (now (db_env bars5 (20005 * day_ms)))
   - date_of (max_date (map row_of_doc (historical_prices Scenario.priced_db)))
   <= 1)%Z
  /\ _get_historical_data (db_env bars5 (20005 * day_ms)) Scenario.priced_server
       "X" "1mo"
     = (Scenario.priced_server, None)
  /\ snd (_get_historical_data (db_env bars5 (20005 * day_ms))
            Scenario.mock_server "X" "1mo") = Some bars5.
Proof.
  split; [vm_compute; discriminate|]. split.
  - exact (proj1 (stored_series_never_returned (db_env bars5 (20005 * day_ms))
                    Scenario.priced_server "X" "1mo")
             Scenario.priced_db eq_refl).
  - rewrite (proj2 (stored_series_never_returned (db_env bars5 (20005 * day_ms))
                      Scenario.mock_server "X" "1mo") eq_refl).
    reflexivity.
Defined.

End DbServerProperties.

(** ** Beta *)

Lemma intersection_naive_aware (a b : list Z) :
  RiskAgent.intersection (map RiskAgent.Naive a) (map RiskAgent.Aware b) = [].
Proof.
  unfold RiskAgent.intersection. apply filter_nil.
  intros x Hx. apply in_map_iff in Hx as (t & <- & _).
  induction b as [|y b IH]; cbn [map existsb RiskAgent.stamp_eqb orb];
    [reflexivity|exact IH].
Qed.

(** The labels of the agent's returns and those of the index returns
    never meet, so no date is common to the two. *)
Lemma no_common_dates (stock_returns nifty_returns : Series) :
  RiskAgent.intersection
    (map (fun p => RiskAgent.Naive (fst p)) stock_returns)
    (map (fun p => RiskAgent.Aware (fst p)) nifty_returns) = [].
Proof.
  rewrite <- (map_map fst RiskAgent.Naive), <- (map_map fst RiskAgent.Aware).
  apply intersection_naive_aware.
Qed.

Lemma calculate_beta_absent (env : RiskAgent.Env) (stock_returns : Series) :
  RiskAgent._calculate_beta env stock_returns = None.
Proof.
  unfold RiskAgent._calculate_beta.
  destruct (RiskAgent.yf_history env "^NSEI" "1mo") as [nifty_hist|]; [|reflexivity].
  destruct (negb (nonempty nifty_hist)); [reflexivity|].
  cbv zeta. rewrite no_common_dates. reflexivity.
Qed.

(** C5, as amended: on the DB-server path beta is the proxy
    [0.7 * volatility / 0.20], whatever the benchmark; on the direct path
    beta is absent when the benchmark history is unavailable or empty and
    whenever the rule of the specification gives absent, which it does
    with fewer than 10 aligned dates and with a benchmark variance of 0. *)
Theorem beta_by_path :
  (forall returns,
      DbServer._calculate_beta_simplified returns
      = Some (0.7 * (series_std (values returns) * PrimFloat.sqrt 252 / 0.20))%float)
  /\ (forall env stock_returns,
        RiskAgent.yf_history env "^NSEI" "1mo" = None
        \/ RiskAgent.yf_history env "^NSEI" "1mo" = Some [] ->
        RiskAgent._calculate_beta env stock_returns = None)
  /\ (forall env stock_returns nifty_hist,
        RiskAgent.yf_history env "^NSEI" "1mo" = Some nifty_hist ->
        Spec.beta stock_returns (returns_of nifty_hist) = None ->
        RiskAgent._calculate_beta env stock_returns = None)
  /\ (forall instrument benchmark,
        List.length (aligned instrument benchmark) < 10 ->
        Spec.beta instrument benchmark = None)
  /\ (forall instrument benchmark,
        feq (Spec.variance (map snd (aligned instrument benchmark))) 0 = true ->
        Spec.beta instrument benchmark = None).
Proof.
  split; [|split; [|split; [|split]]].
  - intros returns. reflexivity.
  - intros env stock _. apply calculate_beta_absent.
  - intros env stock nifty_hist _ _. apply calculate_beta_absent.
  - intros i b H. unfold Spec.beta. apply Nat.ltb_lt in H. rewrite H. reflexivity.
  - intros i b H. unfold Spec.beta. cbv zeta. rewrite H.
    destruct (Nat.ltb (List.length (aligned i b)) 10); reflexivity.
Qed.

Lemma beta_by_path_witness :
  RiskAgent._calculate_beta no_data_env (returns_of bars11) = None
  /\ RiskAgent._calculate_beta (agent_env bars11) (returns_of bars11) = None
  /\ Spec.beta (returns_of bars11) (returns_of bars5) = None
  /\ Spec.beta (returns_of bars11) (returns_of flat_bars) = None.
Proof.
  split; [|split; [|split]].
  - apply (proj1 (proj2 beta_by_path)). right. reflexivity.
  - apply (proj1 (proj2 (proj2 beta_by_path)) (agent_env bars11)
             (returns_of bars11) flat_bars).
    + reflexivity.
    + vm_compute. reflexivity.
  - apply (proj1 (proj2 (proj2 (proj2 beta_by_path)))). vm_compute. lia.
  - apply (proj2 (proj2 (proj2 (proj2 beta_by_path)))). vm_compute. reflexivity.
Defined.

(** C5 as stated fails on the DB-server path: against a constant
    benchmark beta is absent by the rule, and the server reports one. *)
Lemma beta_counterexample :
  Spec.beta (returns_of bars11) (returns_of flat_bars) = None
  /\ exists b,
       DbServer._calculate_beta_simplified (returns_of bars11) = Some b
       /\ dget "beta" (DbServer._calculate_risk_metrics bars11) = Some (VFloat b).
Proof.
  split; [vm_compute; reflexivity|].
  eexists. split; vm_compute; reflexivity.
Qed.

(** ** Portfolios *)

Section RiskAgentProperties.

Import RiskAgent.

Lemma bind_ok {A B : Type} (c : exc A) (k : A -> exc B) (b : B) :
  bind c k = Ok b -> exists a, c = Ok a /\ k a = Ok b.
Proof. destruct c as [a|e]; cbn [bind]; [eauto|discriminate]. Qed.

Lemma portfolio_body_fields (env : Env) (symbols : list string)
    (ws : list float) (d : Dict) :
  analyze_portfolio_risk_body env symbols (Some ws) = Ok d ->
  d = []
  \/ (dget "portfolio_volatility" d
      = Some (volatility_field (_calculate_portfolio_volatility env symbols ws))
      /\ dget "symbols" d = Some (VList (map VStr symbols))
      /\ dget "weights" d = Some (VList (map VFloat ws))).
Proof.
  unfold analyze_portfolio_risk_body. cbn [bind].
  destruct (negb (List.length ws =? List.length symbols)%nat); [discriminate|].
  destruct (negb (nonempty (collect_risks env symbols))).
  { intros [= <-]. left. reflexivity. }
  intros H. right.
  apply bind_ok in H as (wb & _ & H).
  apply bind_ok in H as (wsr & _ & H).
  apply bind_ok in H as (br & _ & H).
  apply bind_ok in H as (sr & _ & H).
  injection H as <-. repeat split; reflexivity.
Qed.

Lemma collect_returns_single (env : Env) (s : string) :
  List.length (collect_returns env [s]) <= 1.
Proof.
  unfold collect_returns. cbn [fold_left].
  destruct (_get_historical_data env s "1mo") as [[|b t]|]; cbn; lia.
Qed.

(** C6, as amended: with a single symbol no portfolio volatility is
    computed, whatever the weights, and the record holds [None] there; a
    portfolio volatility needs two symbols with a returns series. *)
Theorem single_symbol_portfolio (env : Env) :
  (forall s ws, _calculate_portfolio_volatility env [s] ws = None)
  /\ (forall s ws,
        analyze_portfolio_risk env [s] (Some ws) = []
        \/ dget "portfolio_volatility" (analyze_portfolio_risk env [s] (Some ws))
           = Some VNone)
  /\ (forall symbols ws v,
        _calculate_portfolio_volatility env symbols ws = Some v ->
        2 <= List.length (collect_returns env symbols)).
Proof.
  assert (H1 : forall s ws, _calculate_portfolio_volatility env [s] ws = None).
  { intros s ws. unfold _calculate_portfolio_volatility, _calculate_portfolio_volatility_body.
    pose proof (collect_returns_single env s) as H.
    destruct (Nat.ltb_spec (List.length (collect_returns env [s])) 2); [reflexivity|lia]. }
  split; [exact H1|split].
  - intros s ws. unfold analyze_portfolio_risk.
    destruct (analyze_portfolio_risk_body env [s] (Some ws)) as [d|e] eqn:E;
      cbn [try_except]; [|left; reflexivity].
    destruct (portfolio_body_fields env [s] ws d E) as [->|(Hv & _)];
      [left; reflexivity|right].
    rewrite Hv, H1. reflexivity.
  - intros symbols ws v. unfold _calculate_portfolio_volatility,
      _calculate_portfolio_volatility_body.
    destruct (Nat.ltb_spec (List.length (collect_returns env symbols)) 2);
      [discriminate|intros _; lia].
Qed.

Lemma single_symbol_witness :
  2 <= List.length (collect_returns twin_env ["X"; "Y"]).
Proof.
  destruct (_calculate_portfolio_volatility twin_env ["X"; "Y"]
              [0.5; 0.5]%float) as [v|] eqn:E.
  - exact (proj2 (proj2 (single_symbol_portfolio twin_env)) _ _ v E).
  - vm_compute in E. discriminate.
Defined.

(** C6 as stated fails: for one symbol with weight 1.0 the portfolio
    volatility is absent, the symbol's own volatility is 0.376. *)
Lemma single_symbol_counterexample :
  dget "portfolio_volatility"
    (analyze_portfolio_risk (agent_env bars_rising) ["X"] (Some [1%float]))
  = Some VNone
  /\ option_map (dget "volatility")
       (analyze_volatility (agent_env bars_rising) "X" "1mo")
     = Some (Some (VFloat 0.376)).
Proof. split; vm_compute; reflexivity. Qed.

(** C9, as amended: when the number of weights differs from the number
    of symbols the [ValueError] raised in the body is caught and the caller
    gets the empty record. *)
Theorem weights_mismatch_is_empty (env : Env) (symbols : list string)
    (ws : list float) :
  List.length ws <> List.length symbols ->
  analyze_portfolio_risk_body env symbols (Some ws) = Raise weights_mismatch
  /\ analyze_portfolio_risk env symbols (Some ws) = [].
Proof.
  intros H. apply Nat.eqb_neq in H.
  assert (E : analyze_portfolio_risk_body env symbols (Some ws) = Raise weights_mismatch).
  { unfold analyze_portfolio_risk_body. cbn [bind]. rewrite H. reflexivity. }
  split; [exact E|]. unfold analyze_portfolio_risk. rewrite E. reflexivity.
Qed.

Lemma weights_mismatch_is_empty_witness :
  analyze_portfolio_risk (agent_env bars_rising) ["X"; "Y"] (Some [1%float]) = [].
Proof.
  apply (proj2 (weights_mismatch_is_empty (agent_env bars_rising)
                  ["X"; "Y"] [1%float] ltac:(discriminate))).
Defined.

(** C9 as stated fails: the answer to mismatched weights is the empty
    record, the same as the answer when no symbol has any data. *)
Lemma weights_mismatch_counterexample :
  analyze_portfolio_risk (agent_env bars_rising) ["X"; "Y"] (Some [1%float])
  = analyze_portfolio_risk no_data_env ["X"; "Y"] (Some [0.5; 0.5]%float)
  /\ analyze_portfolio_risk (agent_env bars_rising) ["X"; "Y"] (Some [1%float]) = []
  /\ analyze_portfolio_risk (agent_env bars_rising) ["X"; "Y"]
       (Some [0.5; 0.5]%float) <> [].
Proof. repeat split; vm_compute; try reflexivity; discriminate. Qed.

(** C10: for a non-empty list of symbols, omitting the weights is the
    same as passing [1 / len(symbols)] for each symbol, and a non-empty
    record lists those weights. *)
Theorem default_weights (env : Env) (symbols : list string) :
  symbols <> [] ->
  analyze_portfolio_risk env symbols None
  = analyze_portfolio_risk env symbols (Some (equal_weights symbols))
  /\ (analyze_portfolio_risk env symbols None <> [] ->
      dget "weights" (analyze_portfolio_risk env symbols None)
      = Some (VList (map VFloat (equal_weights symbols)))).
Proof.
  intros Hne.
  assert (E : analyze_portfolio_risk_body env symbols None
              = analyze_portfolio_risk_body env symbols (Some (equal_weights symbols))).
  { unfold analyze_portfolio_risk_body, py_div_int.
    destruct (Z.eqb_spec (Z.of_nat (List.length symbols)) 0) as [H0|H0].
    - destruct symbols; [congruence|cbn in H0; lia].
    - reflexivity. }
  unfold analyze_portfolio_risk. rewrite E. split; [reflexivity|].
  destruct (analyze_portfolio_risk_body env symbols (Some (equal_weights symbols)))
    as [d|e] eqn:Eb; cbn [try_except]; [|congruence].
  intros Hd. destruct (portfolio_body_fields env symbols _ d Eb) as [->|(_ & _ & Hw)];
    [congruence|exact Hw].
Qed.

Lemma default_weights_witness :
  analyze_portfolio_risk (agent_env bars_rising) ["X"; "Y"] None
  = analyze_portfolio_risk (agent_env bars_rising) ["X"; "Y"]
      (Some [0.5; 0.5]%float)
  /\ dget "weights" (analyze_portfolio_risk (agent_env bars_rising) ["X"; "Y"] None)
     = Some (VList [VFloat 0.5; VFloat 0.5]).
Proof.
  destruct (default_weights (agent_env bars_rising) ["X"; "Y"]
              ltac:(discriminate)) as [H1 H2].
  split; [exact H1|]. apply H2. vm_compute. discriminate.
Defined.

End RiskAgentProperties.

(** ** The order of binary64 numbers *)

Section FloatOrder.

Local Abbreviation prec := 53%Z.
Local Abbreviation emax := 1024%Z.

Ltac order_cases :=
  repeat match goal with
  | |- context [Z.compare ?a ?b] => destruct (Z.compare_spec a b)
  | |- context [Pos.compare_cont Eq ?a ?b] =>
      change (Pos.compare_cont Eq a b) with (Pos.compare a b);
      destruct (Pos.compare_spec a b)
  end.

Lemma SFltb_key (x y : spec_float) :
  x <> S754_nan -> y <> S754_nan ->
  (SFltb x y = true <-> key_lt (sf_key x) (sf_key y)).
Proof.
  intros Hx Hy. unfold SFltb.
  destruct x as [sx|sx| |sx mx ex], y as [sy|sy| |sy my ey]; try congruence;
    try destruct sx; try destruct sy; cbn [SFcompare sf_key key_lt];
    order_cases; cbn [CompOpp]; split; intros Hgoal; try discriminate; try reflexivity;
    try lia.
Qed.

Lemma SFleb_key (x y : spec_float) :
  x <> S754_nan -> y <> S754_nan ->
  (SFleb x y = true <-> key_le (sf_key x) (sf_key y)).
Proof.
  intros Hx Hy. unfold SFleb.
  destruct x as [sx|sx| |sx mx ex], y as [sy|sy| |sy my ey]; try congruence;
    try destruct sx; try destruct sy; cbn [SFcompare sf_key key_le];
    order_cases; cbn [CompOpp]; split; intros Hgoal; try discriminate; try reflexivity;
    try lia.
Qed.

Lemma SFltb_not_nan (x y : spec_float) :
  SFltb x y = true -> x <> S754_nan /\ y <> S754_nan.
Proof.
  unfold SFltb. destruct x, y; cbn [SFcompare]; intros H; split; congruence.
Qed.

Lemma SFleb_not_nan (x y : spec_float) :
  SFleb x y = true -> x <> S754_nan /\ y <> S754_nan.
Proof.
  unfold SFleb. destruct x, y; cbn [SFcompare]; intros H; split; congruence.
Qed.

Lemma flt_fle_trans (a b c : float) :
  flt a b = true -> fle b c = true -> flt a c = true.
Proof.
  unfold flt, fle. rewrite !FloatAxioms.ltb_spec, FloatAxioms.leb_spec.
  intros H1 H2.
  destruct (SFltb_not_nan _ _ H1) as [Ha Hb].
  destruct (SFleb_not_nan _ _ H2) as [_ Hc].
  apply SFltb_key in H1; trivial. apply SFleb_key in H2; trivial.
  apply SFltb_key; trivial.
  destruct (sf_key (Prim2SF a)) as [[c1 e1] m1],
           (sf_key (Prim2SF b)) as [[c2 e2] m2],
           (sf_key (Prim2SF c)) as [[c3 e3] m3].
  cbn [key_lt key_le] in *. lia.
Qed.

Lemma fle_flt_trans (a b c : float) :
  fle a b = true -> flt b c = true -> flt a c = true.
Proof.
  unfold flt, fle. rewrite !FloatAxioms.ltb_spec, FloatAxioms.leb_spec.
  intros H1 H2.
  destruct (SFleb_not_nan _ _ H1) as [Ha Hb].
  destruct (SFltb_not_nan _ _ H2) as [_ Hc].
  apply SFleb_key in H1; trivial. apply SFltb_key in H2; trivial.
  apply SFltb_key; trivial.
  destruct (sf_key (Prim2SF a)) as [[c1 e1] m1],
           (sf_key (Prim2SF b)) as [[c2 e2] m2],
           (sf_key (Prim2SF c)) as [[c3 e3] m3].
  cbn [key_lt key_le] in *. lia.
Qed.

Lemma binary_round_aux_nonneg (m e : Z) (l : location) :
  (0 <= m)%Z -> sf_nonneg (binary_round_aux prec emax false m e l) = true.
Proof.
  intros H. pose proof (binary_round_aux_not_nan false m e l H) as Hn.
  revert Hn. unfold binary_round_aux.
  destruct (shr_fexp prec emax m e l) as [mrs' e'].
  destruct (shr_fexp prec emax _ e' loc_Exact) as [mrs'' e''].
  destruct (shr_m mrs''); [reflexivity| |congruence].
  destruct (_ <=? _)%Z; reflexivity.
Qed.

Lemma binary_normalize_nonneg (m e : Z) :
  (0 <= m)%Z -> sf_nonneg (binary_normalize prec emax m e false) = true.
Proof.
  intros H. unfold binary_normalize, binary_round.
  destruct m as [|p|p]; [reflexivity| |lia].
  destruct (shl_align _ _ _) as [mz ez]. apply binary_round_aux_nonneg. lia.
Qed.

Lemma SFmul_nonneg (x y : spec_float) :
  sf_nonneg x = true -> sf_nonneg y = true ->
  SFmul prec emax x y = S754_nan \/ sf_nonneg (SFmul prec emax x y) = true.
Proof.
  destruct x as [sx|sx| |sx mx ex], y as [sy|sy| |sy my ey];
    cbn [sf_nonneg SFmul]; intros Hx Hy; try discriminate; auto;
    try (apply negb_true_iff in Hx; subst sx);
    try (apply negb_true_iff in Hy; subst sy); cbn; auto.
  right. apply binary_round_aux_nonneg. lia.
Qed.

Lemma SFltb_nonneg_zero (x : spec_float) :
  x = S754_nan \/ sf_nonneg x = true -> SFltb x (S754_zero false) = false.
Proof.
  intros [->|H]; [reflexivity|].
  destruct x as [s|s| |s m e]; cbn in *; try reflexivity;
    apply negb_true_iff in H; subst; reflexivity.
Qed.

Lemma of_uint63_nonneg (i : int) : sf_nonneg (Prim2SF (of_uint63 i)) = true.
Proof.
  rewrite FloatAxioms.of_uint63_spec. apply binary_normalize_nonneg.
  pose proof (Uint63.to_Z_bounded i). lia.
Qed.

Lemma float_of_nat_nonneg (n : nat) : sf_nonneg (Prim2SF (float_of_nat n)) = true.
Proof.
  unfold float_of_nat, float_of_Z.
  destruct (Z.ltb_spec (Z.of_nat n) 0); [lia|]. apply of_uint63_nonneg.
Qed.

Lemma zero_not_above_share (n : nat) (c : float) :
  sf_nonneg (Prim2SF c) = true ->
  fgt (float_of_nat 0) (float_of_nat n * c)%float = false.
Proof.
  intros Hc. unfold fgt. rewrite FloatAxioms.ltb_spec, FloatAxioms.mul_spec.
  change (Prim2SF (float_of_nat 0)) with (S754_zero false).
  apply SFltb_nonneg_zero, SFmul_nonneg; [apply float_of_nat_nonneg|exact Hc].
Qed.

End FloatOrder.


(** ** The scoring is monotone *)

Lemma fgt_mono (c v v' : float) :
  fle v v' = true -> fgt v c = true -> fgt v' c = true.
Proof. unfold fgt. intros Hle Hlt. exact (flt_fle_trans c v v' Hlt Hle). Qed.

Lemma flt_mono (c v v' : float) :
  fle v' v = true -> flt v c = true -> flt v' c = true.
Proof. intros Hle Hlt. exact (fle_flt_trans v' v c Hle Hlt). Qed.

Lemma vol_score_mono (v v' : float) :
  fle v v' = true -> Spec.vol_score v <= Spec.vol_score v'.
Proof.
  intros H. unfold Spec.vol_score.
  pose proof (fgt_mono 0.40 v v' H). pose proof (fgt_mono 0.25 v v' H).
  pose proof (fgt_mono 0.15 v v' H).
  destruct (fgt v 0.40), (fgt v 0.25), (fgt v 0.15),
    (fgt v' 0.40), (fgt v' 0.25), (fgt v' 0.15); try lia;
    intuition discriminate.
Qed.

Lemma drawdown_score_mono (d d' : float) :
  fle d' d = true -> Spec.drawdown_score d <= Spec.drawdown_score d'.
Proof.
  intros H. unfold Spec.drawdown_score.
  pose proof (flt_mono (-0.30) d d' H). pose proof (flt_mono (-0.20) d d' H).
  pose proof (flt_mono (-0.10) d d' H).
  destruct (flt d (-0.30)), (flt d (-0.20)), (flt d (-0.10)),
    (flt d' (-0.30)), (flt d' (-0.20)), (flt d' (-0.10)); try lia;
    intuition discriminate.
Qed.

Lemma var_score_mono (r r' : float) :
  fle r' r = true -> Spec.var_score r <= Spec.var_score r'.
Proof.
  intros H. unfold Spec.var_score.
  pose proof (flt_mono (-0.05) r r' H). pose proof (flt_mono (-0.03) r r' H).
  pose proof (flt_mono (-0.02) r r' H).
  destruct (flt r (-0.05)), (flt r (-0.03)), (flt r (-0.02)),
    (flt r' (-0.05)), (flt r' (-0.03)), (flt r' (-0.02)); try lia;
    intuition discriminate.
Qed.

Lemma level_of_score_mono (s s' : nat) :
  s <= s' ->
  level_rank (Spec.level_of_score s) <= level_rank (Spec.level_of_score s').
Proof.
  intros H. unfold Spec.level_of_score.
  destruct (Nat.leb_spec 7 s), (Nat.leb_spec 5 s), (Nat.leb_spec 3 s),
    (Nat.leb_spec 1 s), (Nat.leb_spec 7 s'), (Nat.leb_spec 5 s'),
    (Nat.leb_spec 3 s'), (Nat.leb_spec 1 s'); cbn; lia.
Qed.

(** X1: the label of the DB server never drops when one input gets worse
    and the other two stay: a higher volatility, a deeper drawdown or a
    lower VaR gives a label of the same or a higher rank. *)
Theorem classify_risk_monotone (v d r : float) :
  (forall v', fle v v' = true ->
     level_rank (DbServer._classify_risk v d r)
     <= level_rank (DbServer._classify_risk v' d r))
  /\ (forall d', fle d' d = true ->
        level_rank (DbServer._classify_risk v d r)
        <= level_rank (DbServer._classify_risk v d' r))
  /\ (forall r', fle r' r = true ->
        level_rank (DbServer._classify_risk v d r)
        <= level_rank (DbServer._classify_risk v d r')).
Proof.
  rewrite classify_risk_is_scoring. unfold Spec.risk_level, Spec.risk_score.
  split; [|split]; intros x Hx; rewrite classify_risk_is_scoring;
    unfold Spec.risk_level, Spec.risk_score; apply level_of_score_mono.
  - pose proof (vol_score_mono v x Hx). lia.
  - pose proof (drawdown_score_mono d x Hx). lia.
  - pose proof (var_score_mono r x Hx). lia.
Qed.

Lemma classify_risk_monotone_witness :
  level_rank (DbServer._classify_risk 0.2 (-0.25) (-0.04))
  <= level_rank (DbServer._classify_risk 0.5 (-0.25) (-0.04))
  /\ level_rank (DbServer._classify_risk 0.2 (-0.05) (-0.04))
     <= level_rank (DbServer._classify_risk 0.2 (-0.25) (-0.04))
  /\ level_rank (DbServer._classify_risk 0.2 (-0.25) (-0.01))
     <= level_rank (DbServer._classify_risk 0.2 (-0.25) (-0.04)).
Proof.
  split; [|split].
  - exact (proj1 (classify_risk_monotone 0.2 (-0.25) (-0.04)) 0.5%float eq_refl).
  - exact (proj1 (proj2 (classify_risk_monotone 0.2 (-0.05) (-0.04)))
             (-0.25)%float eq_refl).
  - exact (proj2 (proj2 (classify_risk_monotone 0.2 (-0.25) (-0.01)))
             (-0.04)%float eq_refl).
Defined.

(** ** The medium indicators of the agent *)

Lemma empty_interval (lo hi x : float) :
  flt lo hi = false -> flt lo x && fle x hi = false.
Proof.
  intros H. destruct (flt lo x) eqn:E1, (fle x hi) eqn:E2; try reflexivity.
  rewrite (flt_fle_trans lo x hi E1 E2) in H. discriminate.
Qed.

(** X2: in the agent's classification the medium indicators of drawdown
    and VaR never fire (their intervals are empty, the lower bound lying
    above the upper one), so at most one medium indicator counts and the
    level is decided by the number of high indicators alone. *)
Theorem classify_risk_level_by_high_count (v d r : float) :
  RiskAgent.medium_risk_count v d r <= 1
  /\ RiskAgent._classify_risk_level v d r
     = (if (2 <=? RiskAgent.high_risk_count v d r)%nat then "HIGH"
        else if (1 <=? RiskAgent.high_risk_count v d r)%nat then "MEDIUM"
        else "LOW").
Proof.
  assert (Hm : RiskAgent.medium_risk_count v d r <= 1).
  { unfold RiskAgent.medium_risk_count.
    rewrite (empty_interval RiskAgent.medium_drawdown_threshold
               RiskAgent.high_drawdown_threshold d eq_refl).
    rewrite (empty_interval RiskAgent.medium_var_threshold
               RiskAgent.high_var_threshold r eq_refl).
    destruct (_ && _); lia. }
  split; [exact Hm|].
  unfold RiskAgent._classify_risk_level.
  destruct (Nat.leb_spec 2 (RiskAgent.medium_risk_count v d r)); [lia|].
  rewrite orb_false_r. reflexivity.
Qed.


(** ** The server without a database and the upstream log *)

Section StoreProperties.
Import DbServer.

(** X7: without a database nothing is cached: every call of
    [analyze_risk] sends one upstream request and returns the metrics of
    the frame received, or [None] when the frame is empty or the request
    fails; the server stays without a database. *)
Theorem mock_mode_never_caches (env : Env) (srv : Server) (symbol period : string) :
  db srv = None ->
  analyze_risk env srv symbol period
  = (logged srv (ticker_of symbol) period,
     match yf_history env (ticker_of symbol) period with
     | Some ((_ :: _) as rows) => Some (_calculate_risk_metrics rows)
     | _ => None
     end).
Proof.
  intros Hd. rewrite (surjective_pairing (analyze_risk env srv symbol period)).
  rewrite analyze_risk_no_db_state, analyze_risk_no_db_result by exact Hd.
  reflexivity.
Qed.

Lemma mock_mode_never_caches_witness :
  analyze_risk (db_env bars5 t0) Scenario.mock_server "X" "1mo"
  = (logged Scenario.mock_server (ticker_of "X") "1mo",
     match yf_history (db_env bars5 t0) (ticker_of "X") "1mo" with
     | Some ((_ :: _) as rows) => Some (_calculate_risk_metrics rows)
     | _ => None
     end).
Proof.
  exact (mock_mode_never_caches (db_env bars5 t0) Scenario.mock_server
           "X" "1mo" eq_refl).
Defined.

Lemma length_append (a b : string) :
  String.length (a ++ b) = String.length a + String.length b.
Proof. induction a as [|c a IH]; cbn; [reflexivity|]. rewrite IH. reflexivity. Qed.

Lemma substring_append_suffix (a b : string) :
  substring (String.length a) (String.length b) (a ++ b) = b.
Proof.
  induction a as [|c a IH]; cbn [String.length append substring].
  - induction b as [|c b IHb]; cbn; [reflexivity|]. rewrite IHb. reflexivity.
  - exact IH.
Qed.

Lemma endswith_append (a b : string) : endswith (a ++ b) b = true.
Proof.
  unfold endswith. cbv zeta. rewrite length_append.
  replace (String.length a + String.length b - String.length b)
    with (String.length a) by lia.
  rewrite substring_append_suffix, String.eqb_refl.
  rewrite andb_true_r. apply Nat.leb_le. lia.
Qed.

Lemma ticker_has_suffix (symbol : string) :
  has_exchange_suffix (ticker_of symbol) = true.
Proof.
  unfold ticker_of, has_exchange_suffix.
  destruct (endswith symbol ".NS" || endswith symbol ".BO") eqn:E; cbn [negb].
  - exact E.
  - rewrite endswith_append. reflexivity.
Qed.

(** X9: a request to the quote source always names a ticker with an
    exchange suffix: the symbol itself when it ends in .NS or .BO, the
    symbol with .NS appended otherwise; the request is logged once and the
    database is not touched. *)
Theorem fetch_logs_suffixed_ticker (env : Env) (srv : Server)
    (symbol period : string) :
  upstream_calls (fst (_fetch_data_from_api env srv symbol period))
  = (ticker_of symbol, period) :: upstream_calls srv
  /\ db (fst (_fetch_data_from_api env srv symbol period)) = db srv
  /\ has_exchange_suffix (ticker_of symbol) = true
  /\ ticker_of symbol
     = (if has_exchange_suffix symbol then symbol else symbol ++ ".NS")
  /\ ticker_of (ticker_of symbol) = ticker_of symbol.
Proof.
  rewrite fetch_unfold. cbn [fst logged upstream_calls db].
  split; [reflexivity|]. split; [reflexivity|].
  split; [apply ticker_has_suffix|]. split.
  - unfold ticker_of, has_exchange_suffix.
    destruct (endswith symbol ".NS" || endswith symbol ".BO"); reflexivity.
  - pose proof (ticker_has_suffix symbol) as H. unfold has_exchange_suffix in H.
    unfold ticker_of at 1. rewrite H. reflexivity.
Qed.

End StoreProperties.

(** ** The agent's records and the portfolio *)

Section AgentRecordProperties.
Import RiskAgent.

Lemma py_round4_sharpe (x : Val) (f : float) (z : Z) :
  x = VFloat f \/ x = VInt z -> exists v, py_round4 x = Ok v.
Proof. intros [->| ->]; cbn; eauto. Qed.

Lemma compute_metrics_empty_iff (env : Env) (returns prices : Series) :
  _compute_risk_metrics env returns prices = [] <-> zero_divisor prices = true.
Proof.
  unfold _compute_risk_metrics, _compute_risk_metrics_body, zero_divisor. cbv zeta.
  unfold py_div at 1.
  destruct (feq (series_max (values prices) - series_min (values prices)) 0) eqn:E1;
    cbn [bind orb try_except]; [split; reflexivity|].
  unfold py_div at 1.
  destruct (feq (last (values prices) nan) 0) eqn:E2;
    cbn [bind try_except]; [split; reflexivity|].
  unfold py_div at 1. rewrite E2. cbn [bind].
  match goal with |- context [py_round4 (if ?c then _ else _)] => destruct c end;
    cbn [py_round4 bind try_except]; split; discriminate.
Qed.

Lemma dupdate_nil {A : Type} (e : list (string * A)) :
  NoDup (map fst e) -> dupdate [] e = e.
Proof.
  unfold dupdate.
  assert (H : forall acc, NoDup (map fst (acc ++ e)%list) ->
              fold_left (fun a kv => dset (fst kv) (snd kv) a) e acc = (acc ++ e)%list).
  { induction e as [|[k v] t IH]; intros acc Hn; cbn [fold_left].
    - rewrite app_nil_r. reflexivity.
    - assert (Hs : dset k v acc = (acc ++ [(k, v)])%list).
      { clear IH. induction acc as [|[k0 v0] acc IHa]; cbn [dset app]; [reflexivity|].
        cbn [app map fst] in Hn. inversion Hn as [|? ? Hnotin Hn']; subst.
        destruct (String.eqb_spec k k0) as [->|_].
        - exfalso. apply Hnotin. rewrite map_app. apply in_or_app. right. left. reflexivity.
        - rewrite IHa by exact Hn'. reflexivity. }
      cbn [fst snd]. rewrite Hs, IH; rewrite <- app_assoc; [reflexivity|exact Hn]. }
  intros Hn. exact (H [] Hn).
Qed.

(** X10: when the highest and the lowest close coincide, or the latest
    close is zero, the price metrics divide by zero, the computation is
    abandoned and the record of the symbol holds the six descriptive
    entries only, without volatility or risk level; otherwise the record
    holds both. *)
Theorem zero_divisor_gives_bare_record (env : Env) (symbol period : string)
    (df : DataFrame) :
  _get_historical_data env symbol period = Some df ->
  (10 <= List.length (returns_of df))%nat ->
  (zero_divisor (close_series df) = true ->
   _calculate_risk_metrics env symbol period
   = Some (bare_record env symbol period df))
  /\ (zero_divisor (close_series df) = false ->
      exists r, _calculate_risk_metrics env symbol period = Some r
                /\ dget "volatility" r <> None /\ dget "risk_level" r <> None
                /\ dget "symbol" r = Some (VStr symbol)).
Proof.
  intros Hh Hlen. unfold _calculate_risk_metrics. rewrite Hh.
  assert (Hne : nonempty df = true).
  { destruct df; [cbn in Hlen; lia|reflexivity]. }
  rewrite Hne. cbn [negb].
  destruct (Nat.ltb_spec (List.length (returns_of df)) 10) as [Hlt|_]; [lia|].
  split; intros Hz.
  - apply (proj2 (compute_metrics_empty_iff env (returns_of df) (close_series df))) in Hz.
    rewrite Hz. unfold bare_record. rewrite dupdate_nil; [reflexivity|].
    cbn. repeat constructor; cbn; intuition discriminate.
  - eexists. split; [reflexivity|].
    assert (Hd : _compute_risk_metrics env (returns_of df) (close_series df) <> []).
    { intros E. apply compute_metrics_empty_iff in E. congruence. }
    destruct (agent_metrics_cases env (returns_of df) (close_series df)) as [E|Hr];
      [contradiction|].
    rewrite !dget_dupdate_absent by reflexivity.
    split; [|split; [rewrite Hr; discriminate|]].
    + revert Hd. unfold _compute_risk_metrics, _compute_risk_metrics_body. cbv zeta.
      destruct (py_div _ _); cbn [bind try_except]; [|congruence].
      destruct (py_div _ _); cbn [bind try_except]; [|congruence].
      destruct (py_div _ _); cbn [bind try_except]; [|congruence].
      destruct (py_round4 _); cbn [bind try_except]; [|congruence].
      intros _. cbn. discriminate.
    + rewrite dget_dupdate_nodup; [reflexivity|].
      cbn. repeat constructor; cbn; intuition discriminate.
Qed.

Lemma zero_divisor_gives_bare_record_witness :
  _calculate_risk_metrics (agent_env flat_bars) "X" "1mo"
  = Some (bare_record (agent_env flat_bars) "X" "1mo" (map row_of_hist flat_bars)).
Proof.
  apply (proj1 (zero_divisor_gives_bare_record (agent_env flat_bars) "X" "1mo"
                  (map row_of_hist flat_bars) eq_refl
                  ltac:(vm_compute; lia))).
  vm_compute. reflexivity.
Defined.

Lemma server_label_cases (v d r : float) :
  In (DbServer._classify_risk v d r) ["Very High"; "High"; "Medium"; "Low"; "Very Low"].
Proof.
  unfold DbServer._classify_risk. cbv zeta.
  repeat match goal with |- context [if ?c then _ else _] => destruct c end;
    cbn; auto 10.
Qed.

Lemma server_label_unknown (v d r : float) :
  agent_label (VStr (DbServer._classify_risk v d r)) = false.
Proof.
  destruct (server_label_cases v d r) as [<-|[<-|[<-|[<-|[<-|[]]]]]]; reflexivity.
Qed.

Lemma count_level_none (level : string) (l : list Val) :
  (forall v, In v l -> is_str level v = false) -> count_level level l = 0.
Proof.
  intros H. unfold count_level. rewrite (filter_nil (is_str level) l H). reflexivity.
Qed.

(** X11: the portfolio aggregation counts the labels HIGH, MEDIUM and
    LOW only.  When every record of the portfolio carries a label of the
    DB server (Very High ... Very Low), none is counted: the distribution
    is 0/0/0 and the portfolio is rated LOW. *)
Theorem server_labels_count_nowhere (env : Env) (symbols : list string)
    (weights : option (list float)) (r : Dict) :
  analyze_portfolio_risk_body env symbols weights = Ok r ->
  r <> [] ->
  (forall s risk, dget s (collect_risks env symbols) = Some risk ->
                  server_labelled risk) ->
  dget "risk_distribution" r
  = Some (VDict [("HIGH", VInt 0); ("MEDIUM", VInt 0); ("LOW", VInt 0)])
  /\ dget "portfolio_risk_level" r = Some (VStr "LOW").
Proof.
  intros Hbody Hr Hlab. unfold analyze_portfolio_risk_body in Hbody.
  apply bind_ok in Hbody as (ws & _ & Hbody).
  destruct (negb (List.length ws =? List.length symbols)%nat); [discriminate|].
  destruct (negb (nonempty (collect_risks env symbols))).
  { injection Hbody as <-. contradiction. }
  cbv zeta in Hbody.
  apply bind_ok in Hbody as (wb & _ & Hbody).
  apply bind_ok in Hbody as (wsr & _ & Hbody).
  set (risk_levels := flat_map _ symbols) in Hbody.
  assert (Hnone : forall level, In level ["HIGH"; "MEDIUM"; "LOW"] ->
                                count_level level risk_levels = 0).
  { intros level Hl. apply count_level_none. intros v Hv.
    apply in_flat_map in Hv as (s & _ & Hv).
    destruct (dget s (collect_risks env symbols)) as [risk|] eqn:E; [|destruct Hv].
    destruct Hv as [<-|[]].
    destruct (Hlab s risk E) as (x & y & z & Hk).
    unfold get_or. rewrite Hk.
    pose proof (server_label_unknown x y z) as Hu. unfold agent_label in Hu.
    apply orb_false_iff in Hu as [Hu H3]. apply orb_false_iff in Hu as [H1 H2].
    destruct Hl as [<-|[<-|[<-|[]]]]; assumption. }
  rewrite !Hnone in Hbody by (cbn; auto).
  rewrite !zero_not_above_share in Hbody by reflexivity.
  cbn [Nat.ltb Nat.leb orb] in Hbody.
  apply bind_ok in Hbody as (br & _ & Hbody).
  apply bind_ok in Hbody as (sr & _ & Hbody).
  injection Hbody as <-. split; reflexivity.
Qed.

Lemma db_metrics_server_labelled (df : DataFrame) :
  2 <= List.length (returns_of df) ->
  server_labelled (DbServer._calculate_risk_metrics df).
Proof.
  intros H. unfold DbServer._calculate_risk_metrics.
  destruct (Nat.ltb_spec (List.length (returns_of df)) 2) as [Hlt|_]; [lia|].
  cbv zeta. do 3 eexists. reflexivity.
Qed.

Lemma server_labels_count_nowhere_witness :
  dget "risk_distribution"
    (analyze_portfolio_risk Scenario.served_env ["X"; "Y"] None)
  = Some (VDict [("HIGH", VInt 0); ("MEDIUM", VInt 0); ("LOW", VInt 0)])
  /\ dget "portfolio_risk_level"
       (analyze_portfolio_risk Scenario.served_env ["X"; "Y"] None)
     = Some (VStr "LOW").
Proof.
  unfold analyze_portfolio_risk.
  destruct (analyze_portfolio_risk_body Scenario.served_env ["X"; "Y"] None)
    as [r|e] eqn:E; [|vm_compute in E; discriminate E].
  cbn [try_except].
  apply (server_labels_count_nowhere Scenario.served_env ["X"; "Y"] None r E).
  - intros ->. vm_compute in E. discriminate E.
  - assert (Ec : collect_risks Scenario.served_env ["X"; "Y"]
                 = [("X", DbServer._calculate_risk_metrics bars11);
                    ("Y", DbServer._calculate_risk_metrics bars11)])
      by (vm_compute; reflexivity).
    intros s risk. rewrite Ec. cbn [dget].
    assert (Hl : server_labelled (DbServer._calculate_risk_metrics bars11))
      by (apply db_metrics_server_labelled; vm_compute; lia).
    destruct (String.eqb s "X"); [intros [= <-]; exact Hl|].
    destruct (String.eqb s "Y"); [intros [= <-]; exact Hl|discriminate].
Defined.

Lemma dset_keys_in {A : Type} (k : string) (v : A) (d : list (string * A)) :
  In k (map fst d) -> map fst (dset k v d) = map fst d.
Proof.
  induction d as [|[k0 v0] t IH]; cbn [map fst dset]; intros H; [destruct H|].
  destruct (String.eqb_spec k k0) as [->|Hne]; [reflexivity|].
  cbn [map fst]. f_equal. apply IH. destruct H as [H|H]; [congruence|exact H].
Qed.

Lemma dset_keys_new {A : Type} (k : string) (v : A) (d : list (string * A)) :
  ~ In k (map fst d) -> map fst (dset k v d) = (map fst d ++ [k])%list.
Proof.
  induction d as [|[k0 v0] t IH]; cbn [map fst dset app]; intros H; [reflexivity|].
  destruct (String.eqb_spec k k0) as [->|Hne]; [exfalso; apply H; left; reflexivity|].
  cbn [map fst]. f_equal. apply IH. intros Hin. apply H. right. exact Hin.
Qed.

Lemma collect_returns_length (env : Env) (symbols : list string) :
  forall acc : list (string * Series),
  let out :=
    fold_left
      (fun returns_data symbol =>
         match _get_historical_data env symbol "1mo" with
         | Some ((_ :: _) as historical) =>
             dset symbol (returns_of historical) returns_data
         | _ => returns_data
         end) symbols acc in
  List.length out <= List.length acc + List.length symbols
  /\ (List.length out = List.length acc + List.length symbols ->
      NoDup symbols
      /\ (forall s, In s symbols -> has_history env s /\ ~ In s (map fst acc))).
Proof.
  induction symbols as [|s t IH]; intros acc; cbn [fold_left List.length].
  - cbv zeta. split; [lia|]. intros _. split; [constructor|intros s []].
  - cbv zeta.
    set (acc' := match _get_historical_data env s "1mo" with
                 | Some ((_ :: _) as historical) => dset s (returns_of historical) acc
                 | _ => acc end).
    destruct (IH acc') as [Hle Heq]. cbv zeta in Hle, Heq.
    assert (Hacc : (List.length acc' = List.length acc
                    /\ (has_history env s -> In s (map fst acc)
                        -> map fst acc' = map fst acc)
                    /\ (~ has_history env s \/ In s (map fst acc)))
                   \/ (List.length acc' = S (List.length acc)
                       /\ has_history env s /\ ~ In s (map fst acc)
                       /\ map fst acc' = (map fst acc ++ [s])%list)).
    { subst acc'. destruct (_get_historical_data env s "1mo") as [[|b r]|] eqn:E.
      - left. repeat split; auto. left. intros (b0 & r0 & H). congruence.
      - destruct (in_dec string_dec s (map fst acc)) as [Hin|Hnin].
        + left. pose proof (dset_keys_in s (returns_of (b :: r)) acc Hin) as Hk.
          split; [|split; [intros; exact Hk|right; exact Hin]].
          rewrite <- (length_map fst (dset s (returns_of (b :: r)) acc)), Hk.
          apply length_map.
        + right. pose proof (dset_keys_new s (returns_of (b :: r)) acc Hnin) as Hk.
          split; [|split; [exists b, r; exact E|split; assumption]].
          rewrite <- (length_map fst (dset s (returns_of (b :: r)) acc)), Hk,
            length_app, length_map. cbn. lia.
      - left. repeat split; auto. left. intros (b0 & r0 & H). congruence. }
    destruct Hacc as [(Hl & _ & _)|(Hl & Hh & Hnin & Hk)].
    + split; [lia|]. intros E. lia.
    + split; [lia|]. intros E.
      destruct Heq as [Hnd Hall]; [lia|].
      split.
      * constructor; [|exact Hnd]. intros Hin.
        destruct (Hall s Hin) as [_ Hn]. apply Hn. rewrite Hk.
        apply in_or_app. right. left. reflexivity.
      * intros x [<-|Hx]; [split; assumption|].
        destruct (Hall x Hx) as [Hhx Hn]. split; [exact Hhx|].
        intros Hin. apply Hn. rewrite Hk. apply in_or_app. left. exact Hin.
Qed.

(** X12: with one weight per symbol, a portfolio volatility is computed
    only when every listed symbol has price history and no symbol is
    listed twice (and there are at least two); otherwise the number of
    weights differs from the number of return series and none is given. *)
Theorem portfolio_volatility_needs_every_symbol (env : Env)
    (symbols : list string) (weights : list float) (v : float) :
  List.length weights = List.length symbols ->
  _calculate_portfolio_volatility env symbols weights = Some v ->
  (2 <= List.length symbols)%nat
  /\ NoDup symbols
  /\ forall s, In s symbols -> has_history env s.
Proof.
  intros Hw. unfold _calculate_portfolio_volatility, _calculate_portfolio_volatility_body.
  cbv zeta.
  destruct (Nat.ltb_spec (List.length (collect_returns env symbols)) 2) as [|H2];
    [discriminate|].
  destruct (Nat.eqb_spec (List.length weights) (List.length (collect_returns env symbols)))
    as [He|]; [|discriminate].
  intros _.
  destruct (collect_returns_length env symbols []) as [Hle Heq].
  cbv zeta in Hle, Heq. fold (collect_returns env symbols) in Hle, Heq.
  cbn [List.length plus] in Hle, Heq.
  split; [lia|]. destruct Heq as [Hnd Hall]; [lia|].
  split; [exact Hnd|]. intros s Hs. apply (Hall s Hs).
Qed.

Lemma portfolio_volatility_needs_every_symbol_witness :
  (2 <= List.length ["X"; "Y"])%nat
  /\ NoDup ["X"; "Y"]
  /\ forall s, In s ["X"; "Y"] -> has_history twin_env s.
Proof.
  destruct (_calculate_portfolio_volatility twin_env ["X"; "Y"] [0.5; 0.5]%float)
    as [v|] eqn:E.
  - exact (portfolio_volatility_needs_every_symbol twin_env ["X"; "Y"]
             [0.5; 0.5]%float v eq_refl E).
  - vm_compute in E. discriminate E.
Defined.

End AgentRecordProperties.


(** ** Requests and alerts *)

Section DbRequestsProperties.
Import DbServer DbRequests.

Lemma store_correlation_connected (env : Env) (st : Store) (d : Database)
    (symbols : list string) (correlations : Dict) :
  db (server st) = Some d ->
  store_correlation_matrix env st symbols correlations
  = Raise (NotImplementedError database_bool_text).
Proof. intros Hd. unfold store_correlation_matrix. rewrite Hd. reflexivity. Qed.

Lemma store_correlation_no_db (env : Env) (st : Store)
    (symbols : list string) (correlations : Dict) :
  db (server st) = None ->
  store_correlation_matrix env st symbols correlations = Ok (st, false).
Proof. intros Hd. unfold store_correlation_matrix. rewrite Hd. reflexivity. Qed.

Lemma historical_prices_connected (env : Env) (srv : Server) (d : Database)
    (symbol period : string) :
  db srv = Some d ->
  get_historical_prices env srv symbol period
  = (srv, [("error", VStr ("No data available for " ++ symbol))]).
Proof.
  intros Hd. unfold get_historical_prices.
  rewrite (historical_data_connected env srv d symbol period Hd). reflexivity.
Qed.

Lemma historical_prices_db (env : Env) (srv : Server) (symbol period : string) :
  db (fst (get_historical_prices env srv symbol period)) = db srv.
Proof.
  unfold get_historical_prices.
  destruct (db srv) as [d|] eqn:Hd.
  - rewrite (historical_data_connected env srv d symbol period Hd). exact Hd.
  - rewrite (historical_data_no_db env srv symbol period Hd).
    destruct (yf_history env (ticker_of symbol) period) as [[|b t]|]; exact Hd.
Qed.

Lemma analyze_risk_db (env : Env) (srv : Server) (symbol period : string) :
  db (fst (analyze_risk env srv symbol period)) = db srv.
Proof.
  destruct (db srv) as [d|] eqn:Hd.
  - rewrite (analyze_risk_connected env srv d symbol period Hd). exact Hd.
  - rewrite (analyze_risk_no_db_state env srv symbol period Hd). exact Hd.
Qed.

Lemma same_store (st : Store) :
  {| server := server st; correlation_matrix := correlation_matrix st |} = st.
Proof. destruct st; reflexivity. Qed.

(** The response of a connected server, by method. *)
Lemma handle_request_connected (env : Env) (st : Store) (d : Database)
    (request : Request) :
  db (server st) = Some d ->
  handle_request env st request
  = (st,
     [ ("jsonrpc", VStr "2.0");
       ("id", rq_id request);
       if method_is (rq_method request) "analyze_risk" then
         ("error", error_member (-32603)
                     ("Failed to analyze risk for " ++ rq_symbol request))
       else if method_is (rq_method request) "get_historical_prices" then
         ("result", VDict [("error", VStr ("No data available for "
                                           ++ rq_symbol request))])
       else if method_is (rq_method request) "store_correlation" then
         ("error", error_member (-32603)
                     ("Internal error: " ++ database_bool_text))
       else
         ("error", error_member (-32601)
                     ("Method not found: " ++ method_text (rq_method request))) ]).
Proof.
  intros Hd. unfold handle_request, handle_request_body. cbv zeta.
  destruct (method_is (rq_method request) "analyze_risk").
  { rewrite (analyze_risk_connected env (server st) d _ _ Hd), same_store.
    reflexivity. }
  destruct (method_is (rq_method request) "get_historical_prices").
  { rewrite (historical_prices_connected env (server st) d _ _ Hd), same_store.
    reflexivity. }
  destruct (method_is (rq_method request) "store_correlation").
  { rewrite (store_correlation_connected env st d _ _ Hd). reflexivity. }
  reflexivity.
Qed.

(** X3: what the database holds is never used and never changed.  A
    well-formed request leaves a connected server exactly as it was, and
    the response is the same whatever the collections hold; on every
    server the handle and the correlations are after the request what
    they were before it. *)
Theorem stored_data_never_used (env : Env) (st : Store) (request : Request) :
  db (server (fst (handle_request env st request))) = db (server st)
  /\ correlation_matrix (fst (handle_request env st request))
     = correlation_matrix st
  /\ (db (server st) <> None ->
      fst (handle_request env st request) = st
      /\ forall st', db (server st') <> None ->
           snd (handle_request env st' request)
           = snd (handle_request env st request)).
Proof.
  destruct (db (server st)) as [d|] eqn:Hd.
  - rewrite (handle_request_connected env st d request Hd). cbn [fst snd].
    split; [exact Hd|]. split; [reflexivity|]. intros _.
    split; [reflexivity|]. intros st' Hd'.
    destruct (db (server st')) as [d'|] eqn:E; [|contradiction].
    rewrite (handle_request_connected env st' d' request E). reflexivity.
  - split; [|split; [|intros H; contradiction]].
    + unfold handle_request, handle_request_body. cbv zeta.
      destruct (method_is (rq_method request) "analyze_risk").
      { pose proof (analyze_risk_db env (server st) (rq_symbol request)
                      (period_or_default (rq_period request))) as H.
        destruct (analyze_risk env (server st) _ _) as [srv1 [[|kv t]|]];
          cbn [fst snd server] in H |- *; rewrite H; exact Hd. }
      destruct (method_is (rq_method request) "get_historical_prices").
      { pose proof (historical_prices_db env (server st) (rq_symbol request)
                      (period_or_default (rq_period request))) as H.
        destruct (get_historical_prices env (server st) _ _) as [srv1 r].
        cbn [fst snd server] in H |- *. rewrite H. exact Hd. }
      destruct (method_is (rq_method request) "store_correlation").
      { rewrite (store_correlation_no_db env st _ _ Hd). exact Hd. }
      exact Hd.
    + unfold handle_request, handle_request_body. cbv zeta.
      destruct (method_is (rq_method request) "analyze_risk").
      { destruct (analyze_risk env (server st) _ _) as [srv1 [[|kv t]|]];
          reflexivity. }
      destruct (method_is (rq_method request) "get_historical_prices").
      { destruct (get_historical_prices env (server st) _ _) as [srv1 r].
        reflexivity. }
      destruct (method_is (rq_method request) "store_correlation").
      { rewrite (store_correlation_no_db env st _ _ Hd). reflexivity. }
      reflexivity.
Qed.

Lemma stored_data_never_used_witness :
  fst (handle_request (db_env bars11 t0)
         (mkStore Scenario.twice_server []) (RiskAlerts.mcp_request "X" "1mo"))
  = mkStore Scenario.twice_server []
  /\ snd (handle_request (db_env bars11 t0) Scenario.empty_store
            (RiskAlerts.mcp_request "X" "1mo"))
     = snd (handle_request (db_env bars11 t0)
              (mkStore Scenario.twice_server []) (RiskAlerts.mcp_request "X" "1mo")).
Proof.
  destruct (proj2 (proj2 (stored_data_never_used (db_env bars11 t0)
                            (mkStore Scenario.twice_server [])
                            (RiskAlerts.mcp_request "X" "1mo")))
              ltac:(discriminate)) as [H1 H2].
  split; [exact H1|]. apply H2. discriminate.
Defined.

(** X13: the answers of a connected server to a well-formed request.
    [analyze_risk] is answered with error -32603 and the message that
    the analysis of the symbol failed, listing prices with
    the record {error: No data available ...} under [result], and
    [store_correlation] with error -32603 and the text the truth test of
    the handle raises with; no request reaches the quote source. *)
Theorem connected_server_answers (env : Env) (st : Store) (d : Database)
    (request : Request) :
  db (server st) = Some d ->
  upstream_calls (server (fst (handle_request env st request)))
  = upstream_calls (server st)
  /\ (method_is (rq_method request) "analyze_risk" = true ->
      dget "result" (snd (handle_request env st request)) = None
      /\ dget "error" (snd (handle_request env st request))
         = Some (error_member (-32603)
                   ("Failed to analyze risk for " ++ rq_symbol request)))
  /\ (method_is (rq_method request) "get_historical_prices" = true ->
      dget "error" (snd (handle_request env st request)) = None
      /\ dget "result" (snd (handle_request env st request))
         = Some (VDict [("error", VStr ("No data available for "
                                        ++ rq_symbol request))]))
  /\ (method_is (rq_method request) "store_correlation" = true ->
      dget "result" (snd (handle_request env st request)) = None
      /\ dget "error" (snd (handle_request env st request))
         = Some (error_member (-32603)
                   ("Internal error: " ++ database_bool_text))).
Proof.
  intros Hd. rewrite (handle_request_connected env st d request Hd).
  cbn [fst snd]. split; [reflexivity|].
  destruct (rq_method request) as [m|]; cbn [method_is].
  2:{ repeat split; discriminate. }
  destruct (String.eqb_spec m "analyze_risk") as [->|H1].
  { cbn. repeat split; try discriminate; reflexivity. }
  destruct (String.eqb_spec m "get_historical_prices") as [->|H2].
  { cbn. repeat split; try discriminate; reflexivity. }
  destruct (String.eqb_spec m "store_correlation") as [->|H3].
  { cbn. repeat split; try discriminate; reflexivity. }
  repeat split; discriminate.
Qed.

Lemma connected_server_answers_witness :
  dget "error"
    (snd (handle_request (db_env bars11 t0) Scenario.empty_store
            {| rq_id := VInt 7; rq_method := Some "store_correlation";
               rq_symbol := ""; rq_period := None;
               rq_symbols := ["A"; "B"];
               rq_correlations := [("A_B", VFloat 0.5)] |}))
  = Some (error_member (-32603) ("Internal error: " ++ database_bool_text)).
Proof.
  apply (proj2 (proj2 (proj2
           (connected_server_answers (db_env bars11 t0) Scenario.empty_store
              (mkDatabase [] [])
              {| rq_id := VInt 7; rq_method := Some "store_correlation";
                 rq_symbol := ""; rq_period := None;
                 rq_symbols := ["A"; "B"];
                 rq_correlations := [("A_B", VFloat 0.5)] |} eq_refl)))).
  reflexivity.
Defined.

(** X14: every response of [handle_request] to a well-formed request is a
    JSON-RPC envelope: it carries jsonrpc 2.0 and the id of the request,
    and either a non-empty [result] (only for the three served methods)
    or an [error]: code -32601 for any other method, which leaves the
    server as it was, and code -32603 when [analyze_risk] has nothing to
    return or when [store_correlation] meets a database handle. *)
Theorem handle_request_envelope (env : Env) (st : Store) (request : Request) :
  let response := snd (handle_request env st request) in
  dget "jsonrpc" response = Some (VStr "2.0")
  /\ dget "id" response = Some (rq_id request)
  /\ ((exists result, dget "result" response = Some (VDict result)
                      /\ result <> [] /\ dget "error" response = None
                      /\ known_method (rq_method request) = true)
      \/ (dget "result" response = None
          /\ exists code message,
               dget "error" response = Some (error_member code message)
               /\ ((code = (-32601)%Z /\ known_method (rq_method request) = false
                    /\ fst (handle_request env st request) = st)
                   \/ (code = (-32603)%Z
                       /\ (method_is (rq_method request) "analyze_risk" = true
                           \/ (method_is (rq_method request) "store_correlation"
                               = true
                               /\ db (server st) <> None)))))).
Proof.
  cbv zeta. unfold handle_request, handle_request_body, known_method. cbv zeta.
  destruct (method_is (rq_method request) "analyze_risk") eqn:E1.
  - destruct (analyze_risk env (server st) (rq_symbol request)
                (period_or_default (rq_period request))) as [srv1 [[|kv t]|]];
      cbn [snd fst dget String.eqb Ascii.eqb Bool.eqb orb];
      (split; [reflexivity|]); (split; [reflexivity|]).
    + right. split; [reflexivity|]. do 2 eexists. split; [reflexivity|].
      right. split; [reflexivity|left; reflexivity].
    + left. eexists. repeat split. discriminate.
    + right. split; [reflexivity|]. do 2 eexists. split; [reflexivity|].
      right. split; [reflexivity|left; reflexivity].
  - destruct (method_is (rq_method request) "get_historical_prices") eqn:E2.
    + unfold get_historical_prices.
      destruct (_get_historical_data env (server st) (rq_symbol request)
                  (period_or_default (rq_period request))) as [srv1 [[|b t]|]];
        cbn [snd fst dget String.eqb Ascii.eqb Bool.eqb orb];
        (split; [reflexivity|]); (split; [reflexivity|]);
        left; eexists; repeat split; discriminate.
    + destruct (method_is (rq_method request) "store_correlation") eqn:E3.
      * destruct (db (server st)) as [d|] eqn:Hd.
        -- rewrite (store_correlation_connected env st d _ _ Hd).
           cbn [snd fst dget String.eqb Ascii.eqb Bool.eqb orb].
           split; [reflexivity|]. split; [reflexivity|].
           right. split; [reflexivity|]. do 2 eexists. split; [reflexivity|].
           right. split; [reflexivity|]. right. split; [reflexivity|discriminate].
        -- rewrite (store_correlation_no_db env st _ _ Hd).
           cbn [snd fst dget String.eqb Ascii.eqb Bool.eqb orb].
           split; [reflexivity|]. split; [reflexivity|].
           left. eexists. repeat split. discriminate.
      * cbn [snd fst dget String.eqb Ascii.eqb Bool.eqb orb].
        split; [reflexivity|]. split; [reflexivity|].
        right. split; [reflexivity|]. do 2 eexists. split; [reflexivity|].
        left. repeat split.
Qed.

Lemma handle_analyze_risk (env : Env) (st : Store) (symbol period : string) :
  RiskAlerts.served_result env st symbol period
  = match snd (analyze_risk env (server st) symbol period) with
    | Some ((_ :: _) as result) => Some result
    | _ => None
    end.
Proof.
  unfold RiskAlerts.served_result, RiskAlerts.result_of_reply, handle_request,
    handle_request_body, RiskAlerts.mcp_request.
  cbn [rq_method method_is String.eqb Ascii.eqb Bool.eqb
       Z.eqb Pos.eqb rq_symbol rq_period period_or_default rq_id].
  cbv zeta.
  destruct (analyze_risk env (server st) symbol period) as [srv1 [[|kv t]|]];
    reflexivity.
Qed.

(** X15: when a server without a database receives from the quote source
    a price series with fewer than two returns, it answers the agent's
    request with the record {error: Insufficient data ...} under
    [result], not as a JSON-RPC error; the agent takes that record as the
    analysis of the symbol and does not fall back to its own
    calculation. *)
Theorem insufficient_data_reaches_agent (senv : Env) (st : Store)
    (aenv : RiskAgent.Env) (symbol period : string) (rows : DataFrame) :
  db (server st) = None ->
  yf_history senv (ticker_of symbol) period = Some rows ->
  rows <> [] ->
  List.length (returns_of rows) < 2 ->
  RiskAgent.mcp_analyze_risk aenv symbol period
  = RiskAlerts.served_result senv st symbol period ->
  dget "result" (snd (handle_request senv st (RiskAlerts.mcp_request symbol period)))
  = Some (VDict insufficient)
  /\ dget "error" (snd (handle_request senv st (RiskAlerts.mcp_request symbol period)))
     = None
  /\ RiskAgent.analyze_volatility aenv symbol period = Some insufficient.
Proof.
  intros Hd Hrows Hne Hlen Hserved.
  assert (Ha : snd (analyze_risk senv (server st) symbol period) = Some insufficient).
  { rewrite (analyze_risk_no_db_result senv (server st) symbol period Hd), Hrows.
    destruct rows as [|b t]; [contradiction|].
    rewrite (db_metrics_insufficient (b :: t) Hlen). reflexivity. }
  split; [|split].
  - unfold handle_request, handle_request_body, RiskAlerts.mcp_request.
    cbn [rq_method method_is String.eqb Ascii.eqb Bool.eqb rq_symbol rq_period
         period_or_default rq_id]. cbv zeta.
    destruct (analyze_risk senv (server st) symbol period) as [srv1 r].
    cbn [snd] in Ha. subst r. reflexivity.
  - unfold handle_request, handle_request_body, RiskAlerts.mcp_request.
    cbn [rq_method method_is String.eqb Ascii.eqb Bool.eqb rq_symbol rq_period
         period_or_default rq_id]. cbv zeta.
    destruct (analyze_risk senv (server st) symbol period) as [srv1 r].
    cbn [snd] in Ha. subst r. reflexivity.
  - unfold RiskAgent.analyze_volatility, RiskAgent._get_risk_from_mcp.
    rewrite Hserved, handle_analyze_risk, Ha. reflexivity.
Qed.

Lemma insufficient_data_reaches_agent_witness :
  RiskAgent.analyze_volatility
    (Scenario.relay_env (db_env bars1 t0) Scenario.mock_store) "X" "1mo"
  = Some insufficient.
Proof.
  apply (proj2 (proj2
           (insufficient_data_reaches_agent (db_env bars1 t0) Scenario.mock_store
              (Scenario.relay_env (db_env bars1 t0) Scenario.mock_store)
              "X" "1mo" bars1 eq_refl eq_refl ltac:(discriminate)
              ltac:(vm_compute; lia) eq_refl))).
Defined.

End DbRequestsProperties.

Section AlertProperties.
Import RiskAgent RiskAlerts.

Lemma check_sound (symbol : string) (risk : Dict)
    (key type phrase severity : string) (thr : float)
    (cmp : Val -> float -> exc bool) (fcmp : float -> float -> bool)
    (c : bool) (l : list Val) (a : Val) :
  (forall v, cmp v thr = match number_of v with
                         | Some x => Ok (fcmp x thr)
                         | None => Raise TypeError
                         end) ->
  fcmp (float_of_Z 0) thr = false ->
  cmp (get_or key (VInt 0) risk) thr = Ok c ->
  (if c then
     text <- py_format_pct2 (item key risk) ;;
     Ok [alert symbol type (symbol ++ phrase ++ text) severity (item key risk)]
   else Ok []) = Ok l ->
  In a l ->
  alert_on symbol risk key type phrase severity (fun x => fcmp x thr) a.
Proof.
  intros Hcmp H0 Hc Hl Hin. rewrite Hcmp in Hc.
  unfold get_or, item, get_or_none in Hc, Hl.
  destruct (dget key risk) as [v|] eqn:Ek.
  - destruct (number_of v) as [x|] eqn:Ex; [|discriminate].
    injection Hc as <-.
    destruct (fcmp x thr) eqn:Ec.
    + assert (Hf : py_format_pct2 v = Ok (format_pct2 x)).
      { destruct v; cbn in Ex |- *; try discriminate; injection Ex as <-; reflexivity. }
      rewrite Hf in Hl. cbn [bind] in Hl. injection Hl as <-.
      destruct Hin as [<-|[]]. exists v, x. repeat split; assumption.
    + injection Hl as <-. destruct Hin.
  - cbn [number_of] in Hc. rewrite H0 in Hc. injection Hc as <-.
    injection Hl as <-. destruct Hin.
Qed.

Lemma py_gt_number (v : Val) (y : float) :
  py_gt v y = match number_of v with
              | Some x => Ok (fgt x y)
              | None => Raise TypeError
              end.
Proof. destruct v; reflexivity. Qed.

Lemma py_lt_number (v : Val) (y : float) :
  py_lt v y = match number_of v with
              | Some x => Ok (flt x y)
              | None => Raise TypeError
              end.
Proof. destruct v; reflexivity. Qed.

Lemma alerts_for_sound (symbol : string) (risk : Dict) (l : list Val) (a : Val) :
  alerts_for symbol risk = Ok l -> In a l -> grounded symbol risk a.
Proof.
  unfold alerts_for. intros H Hin.
  apply bind_ok in H as (c1 & Hc1 & H). apply bind_ok in H as (a1 & Ha1 & H).
  apply bind_ok in H as (c2 & Hc2 & H). apply bind_ok in H as (a2 & Ha2 & H).
  apply bind_ok in H as (c3 & Hc3 & H). apply bind_ok in H as (a3 & Ha3 & H).
  injection H as <-.
  apply in_app_or in Hin as [Hin|Hin]; [|apply in_app_or in Hin as [Hin|Hin]].
  - left. exact (check_sound symbol risk _ _ _ _ 0.4 py_gt fgt c1 a1 a
                   (fun v => py_gt_number v _) eq_refl Hc1 Ha1 Hin).
  - right. left.
    exact (check_sound symbol risk _ _ _ _ (-0.25) py_lt flt c2 a2 a
             (fun v => py_lt_number v _) eq_refl Hc2 Ha2 Hin).
  - right. right.
    exact (check_sound symbol risk _ _ _ _ (-0.05) py_lt flt c3 a3 a
             (fun v => py_lt_number v _) eq_refl Hc3 Ha3 Hin).
Qed.

Lemma alerts_from_sound (env : Env) (symbols : list string) :
  forall (acc out : list Val) (P : Val -> Prop),
  (forall a, In a acc -> P a) ->
  (forall symbol risk a, In symbol symbols ->
     analyze_volatility env symbol "1mo" = Some risk -> risk <> [] ->
     grounded symbol risk a -> P a) ->
  get_risk_alerts_from env acc symbols = Ok out ->
  forall a, In a out -> P a.
Proof.
  induction symbols as [|s t IH]; intros acc out P Hacc Hstep; cbn [get_risk_alerts_from].
  - intros [= <-]. exact Hacc.
  - destruct (analyze_volatility env s "1mo") as [[|kv r]|] eqn:Ea.
    + apply IH; [exact Hacc|]. intros symbol risk a Hs. apply Hstep. right. exact Hs.
    + intros H. apply bind_ok in H as (found & Hf & H).
      revert H. apply IH.
      * intros a Ha. apply in_app_or in Ha as [Ha|Ha]; [exact (Hacc a Ha)|].
        apply (Hstep s (kv :: r) a (or_introl eq_refl) Ea); [discriminate|].
        exact (alerts_for_sound s (kv :: r) found a Hf Ha).
      * intros symbol risk a Hs. apply Hstep. right. exact Hs.
    + apply IH; [exact Hacc|]. intros symbol risk a Hs. apply Hstep. right. exact Hs.
Qed.

(** X16: every alert of [get_risk_alerts] is grounded in the record of
    one of the listed symbols: that record holds a number under
    volatility, max_drawdown or var_95 which passes the check of the
    alert (above 0.4, below -0.25, below -0.05), and the alert reports
    that value, its percentage text and the severity of its kind.  A
    symbol without those entries raises no alert. *)
Theorem alerts_are_grounded (env : Env) (symbols : list string) (a : Val) :
  In a (get_risk_alerts env symbols) ->
  exists symbol risk,
    In symbol symbols
    /\ analyze_volatility env symbol "1mo" = Some risk
    /\ grounded symbol risk a.
Proof.
  unfold get_risk_alerts.
  destruct (get_risk_alerts_from env [] symbols) as [out|e] eqn:E;
    cbn [try_except]; [|intros []].
  apply (alerts_from_sound env symbols [] out
           (fun a => exists symbol risk, In symbol symbols
                     /\ analyze_volatility env symbol "1mo" = Some risk
                     /\ grounded symbol risk a)); [intros x []| |exact E].
  intros symbol risk x Hs Hr _ Hg. exists symbol, risk. auto.
Qed.

Lemma alerts_for_raises (symbol : string) (risk : Dict) (key : string) :
  In key ["volatility"; "max_drawdown"; "var_95"] ->
  number_of (get_or key (VInt 0) risk) = None ->
  exists e, alerts_for symbol risk = Raise e.
Proof.
  intros Hk Hn. unfold alerts_for.
  assert (Hfmt : forall k x (fcmp : float -> float -> bool) thr (mk : string -> Val),
            number_of (get_or k (VInt 0) risk) = Some x ->
            fcmp (float_of_Z 0) thr = false ->
            exists l, (if fcmp x thr
                       then text <- py_format_pct2 (item k risk) ;; Ok [mk text]
                       else Ok []) = Ok l).
  { intros k x fcmp thr mk Hnum H0.
    unfold get_or, item, get_or_none in *.
    destruct (dget k risk) as [v|].
    - destruct (fcmp x thr); [|eexists; reflexivity].
      destruct v; cbn in Hnum |- *; try discriminate; eexists; reflexivity.
    - cbn [number_of] in Hnum. injection Hnum as <-. rewrite H0. eexists; reflexivity. }
  rewrite py_gt_number.
  destruct (number_of (get_or "volatility" (VInt 0) risk)) as [x1|] eqn:E1;
    [|eexists; reflexivity].
  cbn [bind].
  destruct (Hfmt "volatility" x1 fgt 0.4%float
              (fun text => alert symbol "HIGH_VOLATILITY"
                             (symbol ++ " showing high volatility: " ++ text) "HIGH"
                             (item "volatility" risk)) E1 eq_refl)
    as [l1 ->].
  cbn [bind]. rewrite py_lt_number.
  destruct (number_of (get_or "max_drawdown" (VInt 0) risk)) as [x2|] eqn:E2;
    [|eexists; reflexivity].
  cbn [bind].
  destruct (Hfmt "max_drawdown" x2 flt (-0.25)%float
              (fun text => alert symbol "LARGE_DRAWDOWN"
                             (symbol ++ " has large max drawdown: " ++ text) "HIGH"
                             (item "max_drawdown" risk)) E2 eq_refl)
    as [l2 ->].
  cbn [bind]. rewrite py_lt_number.
  destruct (number_of (get_or "var_95" (VInt 0) risk)) as [x3|] eqn:E3;
    [|eexists; reflexivity].
  exfalso. destruct Hk as [<-|[<-|[<-|[]]]]; congruence.
Qed.

Lemma alerts_from_raises (env : Env) (symbols : list string) (s : string)
    (risk : Dict) (e : PyExc) :
  In s symbols ->
  analyze_volatility env s "1mo" = Some risk -> risk <> [] ->
  alerts_for s risk = Raise e ->
  forall acc, exists e', get_risk_alerts_from env acc symbols = Raise e'.
Proof.
  intros Hin Ha Hne Hr.
  induction symbols as [|s0 t IH]; [destruct Hin|]. intros acc.
  cbn [get_risk_alerts_from].
  destruct (analyze_volatility env s0 "1mo") as [[|kv r]|] eqn:E0.
  - destruct Hin as [->|Hin]; [congruence|]. apply IH, Hin.
  - destruct (alerts_for s0 (kv :: r)) as [found|e0] eqn:Ef; cbn [bind].
    + destruct Hin as [->|Hin]; [congruence|]. apply IH, Hin.
    + eexists. reflexivity.
  - destruct Hin as [->|Hin]; [congruence|]. apply IH, Hin.
Qed.

(** X17: one record with a value that is not a number under
    volatility, max_drawdown or var_95 makes the comparison fail; the
    failure is caught around the whole loop, so the alerts of every
    symbol are lost and the result is the empty list. *)
Theorem malformed_record_silences_alerts (env : Env) (symbols : list string)
    (s key : string) (risk : Dict) :
  In s symbols ->
  analyze_volatility env s "1mo" = Some risk ->
  In key ["volatility"; "max_drawdown"; "var_95"] ->
  (exists v, dget key risk = Some v /\ number_of v = None) ->
  get_risk_alerts env symbols = [].
Proof.
  intros Hin Ha Hk (v & Hv & Hn).
  assert (Hne : risk <> []) by (intros ->; discriminate Hv).
  destruct (alerts_for_raises s risk key Hk) as [e He].
  { unfold get_or. rewrite Hv. exact Hn. }
  destruct (alerts_from_raises env symbols s risk e Hin Ha Hne He []) as [e' He'].
  unfold get_risk_alerts. rewrite He'. reflexivity.
Qed.

Lemma alerts_are_grounded_witness :
  exists symbol risk,
    In symbol ["X"]
    /\ analyze_volatility Scenario.alert_env symbol "1mo" = Some risk
    /\ grounded symbol risk Scenario.volatility_alert.
Proof.
  apply (alerts_are_grounded Scenario.alert_env ["X"] Scenario.volatility_alert).
  vm_compute. left. reflexivity.
Defined.

Lemma malformed_record_silences_alerts_witness :
  get_risk_alerts Scenario.alert_env ["X"; "Y"] = []
  /\ get_risk_alerts Scenario.alert_env ["X"] = [Scenario.volatility_alert].
Proof.
  split.
  - apply (malformed_record_silences_alerts Scenario.alert_env ["X"; "Y"]
             "Y" "volatility" [("volatility", VNone)]).
    + right. left. reflexivity.
    + reflexivity.
    + left. reflexivity.
    + exists VNone. split; reflexivity.
  - vm_compute. reflexivity.
Defined.

End AlertProperties.
